(** * cloudbio/distribution.py: the Fabric environment set-up pass

    A shallow embedding of [cloudbio/distribution.py].  The Fabric [env]
    object is an attribute dictionary: it is modelled as a finite map from
    field names to values.  The module mutates [env] in place, writes to the
    logger attached to it, and issues remote commands; all three are
    threaded through a state, which survives an exception exactly as the
    mutated Python object does. *)

From Stdlib Require Import ZArith Ascii String List Lia.
From stdpp Require Import base option strings list gmap fin_maps.

Local Open Scope string_scope.
Local Open Scope Z_scope.

(* String concatenation unfolds on a constructor. *)
Local Arguments String.append !_ _ / : simpl nomatch.

(** ** Python string primitives *)

Module PyStr.

(** [str.lower] on a byte string: only the ASCII capitals change. *)
Definition lower_ascii (c : ascii) : ascii :=
  let n := nat_of_ascii c in
  if ((65 <=? n) && (n <=? 90))%nat then ascii_of_nat (n + 32) else c.

Fixpoint lower (s : string) : string :=
  match s with
  | EmptyString => EmptyString
  | String c s' => String (lower_ascii c) (lower s')
  end.

(** Position of the first occurrence of [sub] in [s], if any. *)
Fixpoint find_nat (sub s : string) : option nat :=
  if String.prefix sub s then Some 0%nat
  else match s with
       | EmptyString => None
       | String _ s' => S <$> find_nat sub s'
       end.

(** [s.find(sub)]: the index of the first occurrence, or [-1]. *)
Definition find (s sub : string) : Z :=
  match find_nat sub s with
  | Some n => Z.of_nat n
  | None => -1
  end.

(** The characters [str.split()] and [str.strip()] treat as blanks. *)
Definition is_space (c : ascii) : bool :=
  let n := nat_of_ascii c in
  ((n =? 32) || ((9 <=? n) && (n <=? 13)))%nat.

Fixpoint lstrip (s : string) : string :=
  match s with
  | EmptyString => EmptyString
  | String c s' => if is_space c then lstrip s' else s
  end.

Fixpoint rstrip (s : string) : string :=
  match s with
  | EmptyString => EmptyString
  | String c s' =>
      match rstrip s' with
      | EmptyString => if is_space c then EmptyString else String c EmptyString
      | r => String c r
      end
  end.

(** [s.strip()] *)
Definition strip (s : string) : string := rstrip (lstrip s).

(** [s.split(sep)] for a one-character separator: empty pieces are kept.
    The accumulator [cur] holds the current piece, reversed. *)
Fixpoint split_on_go (sep : ascii) (cur : string) (s : string) : list string :=
  match s with
  | EmptyString => [String.rev cur]
  | String c s' =>
      if Ascii.eqb c sep then String.rev cur :: split_on_go sep EmptyString s'
      else split_on_go sep (String c cur) s'
  end.

Definition split_on (sep : ascii) (s : string) : list string :=
  split_on_go sep EmptyString s.

(** [s.split()] with no argument: the maximal runs of non-blank characters. *)
Fixpoint split_ws_go (cur : string) (s : string) : list string :=
  match s with
  | EmptyString =>
      match cur with EmptyString => [] | _ => [String.rev cur] end
  | String c s' =>
      if is_space c then
        match cur with
        | EmptyString => split_ws_go EmptyString s'
        | _ => String.rev cur :: split_ws_go EmptyString s'
        end
      else split_ws_go (String c cur) s'
  end.

Definition split_ws (s : string) : list string := split_ws_go EmptyString s.

Definition newline : ascii := ascii_of_nat 10.

End PyStr.

(** ** Values, exceptions and the [%] operator *)

(** The two Fabric primitives that [safe_sudo] can be bound to. *)
Inductive executor := Sudo | Run.

(** What a field of [env] can hold in this module. *)
Inductive value :=
| VStr (s : string)
| VBool (b : bool)
| VList (l : list string)
| VExec (e : executor).

Global Instance executor_eq_dec : EqDecision executor.
Proof. solve_decision. Defined.

Global Instance value_eq_dec : EqDecision value.
Proof. solve_decision. Defined.

(** The exceptions that can leave the module.  [SystemExit] is Fabric's
    abort of a failed remote command; [OutOfModel] marks the Python
    behaviours that are not embedded (conversion specifiers other than
    [%s] and [%%], and the [str()] of lists and functions). *)
Inductive exn :=
| ValueError (msg : string)
| AttributeError (name : string)
| KeyError (key : string)
| IndexError
| TypeError (msg : string)
| OSError
| SystemExit (cmd : string)
| OutOfModel.

Inductive result (A : Type) :=
| Ok (a : A)
| Raise (e : exn).
Arguments Ok {A} a.
Arguments Raise {A} e.

Definition result_bind {A B} (r : result A) (k : A -> result B) : result B :=
  match r with
  | Ok a => k a
  | Raise e => Raise e
  end.

(** [v == s] for a string literal [s]. *)
Definition py_eq_str (v : value) (s : string) : bool :=
  match v with
  | VStr s' => String.eqb s' s
  | _ => false
  end.

(** [v in [s1, ..., sn]] for string literals. *)
Definition py_in_strs (v : value) (l : list string) : bool :=
  existsb (py_eq_str v) l.

(** [str(v)], where it is embedded. *)
Definition py_str (v : value) : option string :=
  match v with
  | VStr s => Some s
  | VBool true => Some "True"
  | VBool false => Some "False"
  | _ => None
  end.

(** [v.lower()]: only strings have the method. *)
Definition py_lower (v : value) : result string :=
  match v with
  | VStr s => Ok (PyStr.lower s)
  | _ => Raise (AttributeError "lower")
  end.

(** [prefix + v] for a string literal [prefix]. *)
Definition py_concat (prefix : string) (v : value) : result string :=
  match v with
  | VStr s => Ok (prefix +:+ s)
  | _ => Raise (TypeError "cannot concatenate 'str' and non-str objects")
  end.

(** [v[0]] *)
Definition py_first (v : value) : result value :=
  match v with
  | VList (x :: _) => Ok (VStr x)
  | VList [] => Raise IndexError
  | VStr (String c _) => Ok (VStr (String c EmptyString))
  | VStr EmptyString => Raise IndexError
  | _ => Raise (TypeError "object does not support indexing")
  end.

(** The scan of [fmt % args]: characters are copied, [%%] is a percent sign
    and [%s] takes the next argument.  The arguments left over are returned
    with the text. *)
Fixpoint format_go (fmt : string) (args : list string) : result (string * list string) :=
  match fmt with
  | EmptyString => Ok (EmptyString, args)
  | String c rest =>
      if Ascii.eqb c "%" then
        match rest with
        | EmptyString => Raise (ValueError "incomplete format")
        | String d rest' =>
            if Ascii.eqb d "%" then
              result_bind (format_go rest' args) (fun '(out, unused) =>
                Ok (String "%" out, unused))
            else if Ascii.eqb d "s" then
              match args with
              | [] => Raise (TypeError "not enough arguments for format string")
              | a :: args' =>
                  result_bind (format_go rest' args') (fun '(out, unused) =>
                    Ok (a +:+ out, unused))
              end
            else Raise OutOfModel
        end
      else
        result_bind (format_go rest args) (fun '(out, unused) => Ok (String c out, unused))
  end.

(** [fmt % args] on string arguments; every argument has to be used. *)
Definition py_format (fmt : string) (args : list string) : result string :=
  result_bind (format_go fmt args) (fun '(out, unused) =>
    match unused with
    | [] => Ok out
    | _ => Raise (TypeError "not all arguments converted during string formatting")
    end).

(** [fmt % (v1, ..., vn)], and [fmt % v] for a single value. *)
Definition py_percent (fmt : string) (args : list value) : result string :=
  match mapM py_str args with
  | Some l => py_format fmt l
  | None => Raise OutOfModel
  end.

(** ** The environment context and the set-up monad *)

Inductive level := DEBUG | INFO | WARN.

(** [env], the lines handed to [env.logger], and the remote commands issued
    so far (both oldest first). *)
Record state := State {
  env : gmap string value;
  log : list (level * string);
  cmds : list string
}.

(** What lies outside the module: the remote host ([None] when Fabric aborts
    the command), the standard output of [vagrant ssh-config] ([None] when
    the process cannot be started) and [os.environ]. *)
Record world := World {
  w_run : string -> option string;
  w_vagrant : option string;
  w_environ : gmap string string
}.

(** A computation either returns or raises; the state it leaves behind is
    kept in both cases, as [env] is mutated in place. *)
Definition M (A : Type) : Type := state -> state * result A.

Global Instance M_ret : MRet M := fun A a st => (st, Ok a).

Global Instance M_bind : MBind M := fun A B k m st =>
  match m st with
  | (st', Ok a) => k a st'
  | (st', Raise e) => (st', Raise e)
  end.

Definition raise {A} (e : exn) : M A := fun st => (st, Raise e).

Definition lift {A} (r : result A) : M A := fun st => (st, r).

(** [env.k], which raises on a missing field. *)
Definition getattr (k : string) : M value := fun st =>
  match env st !! k with
  | Some v => (st, Ok v)
  | None => (st, Raise (AttributeError k))
  end.

(** [getattr(env, k, d)] *)
Definition getattr_default (k : string) (d : value) : M value := fun st =>
  (st, Ok (default d (env st !! k))).

(** [env.k = v] *)
Definition setattr (k : string) (v : value) : M unit := fun st =>
  (State (<[k:=v]> (env st)) (log st) (cmds st), Ok tt).

(** [env.has_key(k)] *)
Definition has_key (k : string) : M bool := fun st =>
  (st, Ok (bool_decide (is_Some (env st !! k)))).

(** [env.logger.debug], [.info] and [.warn] *)
Definition logger (lvl : level) (msg : string) : M unit := fun st =>
  (State (env st) (log st ++ [(lvl, msg)]) (cmds st), Ok tt).

(** Fabric's [run(cmd)] *)
Definition run (w : world) (cmd : string) : M string := fun st =>
  let st' := State (env st) (log st) (cmds st ++ [cmd]) in
  match w_run w cmd with
  | Some out => (st', Ok out)
  | None => (st', Raise (SystemExit cmd))
  end.

(** [hay.find(needle)], which wants a string. *)
Definition py_find (hay : string) (needle : value) : result Z :=
  match needle with
  | VStr n => Ok (PyStr.find hay n)
  | _ => Raise (TypeError "expected a character buffer object")
  end.

(** ** The functions of the module *)

(** The body of the loop of [_add_source_versions]. *)
Definition patch_source (name : value) (s : string) : result string :=
  if 0 <? PyStr.find s "%s" then py_percent s [name] else Ok s.

Fixpoint patch_sources (name : value) (sources : list string) : result (list string) :=
  match sources with
  | [] => Ok []
  | s :: rest =>
      result_bind (patch_source name s) (fun s' =>
      result_bind (patch_sources name rest) (fun final => Ok (s' :: final)))
  end.

Definition _add_source_versions (version : value) (sources : list string) : M (list string) :=
  let name := version in
  msg ← lift (py_percent "Source=%s" [name]);
  logger DEBUG msg;;
  lift (patch_sources name sources).

Definition _setup_deb_general : M (list string) :=
  logger DEBUG "Debian-shared setup";;
  setattr "sources_file" (VStr "/etc/apt/sources.list.d/cloudbiolinux.list");;
  setattr "apt_preferences_file" (VStr "/etc/apt/preferences");;
  setattr "python_version_ext" (VStr "");;
  setattr "ruby_version_ext" (VStr "1.9.1");;
  (b ← has_key "java_home";
   if negb (b : bool) then setattr "java_home" (VStr "/usr/lib/jvm/java-6-openjdk")
   else mret tt);;
  let shared_sources := [
    "deb http://nebc.nox.ac.uk/bio-linux/ unstable bio-linux";
    "deb http://download.virtualbox.org/virtualbox/debian %s contrib"
  ] in
  mret shared_sources.

Definition _setup_ubuntu : M unit :=
  logger INFO "Ubuntu setup";;
  shared_sources ← _setup_deb_general;
  let sources := ([
    "deb http://au.archive.ubuntu.com/ubuntu/ %s universe";
    "deb http://au.archive.ubuntu.com/ubuntu/ %s multiverse";
    "deb http://au.archive.ubuntu.com/ubuntu/ %s-updates universe";
    "deb http://au.archive.ubuntu.com/ubuntu/ %s-updates multiverse";
    "deb http://archive.canonical.com/ubuntu %s partner";
    "deb http://downloads-distro.mongodb.org/repo/ubuntu-upstart dist 10gen";
    "deb http://cran.ms.unimelb.edu.au/bin/linux/ubuntu %s/";
    "deb http://archive.cloudera.com/debian maverick-cdh3 contrib";
    "deb http://archive.canonical.com/ubuntu %s partner";
    "deb http://ppa.launchpad.net/freenx-team/ppa/ubuntu %s main"
  ] ++ shared_sources)%list in
  dist_name ← getattr "dist_name";
  final ← _add_source_versions dist_name sources;
  setattr "std_sources" (VList final).

Definition _setup_debian : M unit :=
  logger INFO "Debian setup";;
  shared_sources ← _setup_deb_general;
  let sources := ([
    "deb http://downloads-distro.mongodb.org/repo/debian-sysvinit dist 10gen";
    "deb http://cran.stat.ucla.edu/bin/linux/debian %s-cran/";
    "deb http://archive.cloudera.com/debian lenny-cdh3 contrib"
  ] ++ shared_sources)%list in
  dist_name ← getattr "dist_name";
  final ← _add_source_versions dist_name sources;
  setattr "std_sources" (VList final).

Definition _setup_centos : M unit :=
  logger INFO "CentOS setup";;
  setattr "python_version_ext" (VStr "2.6");;
  setattr "ruby_version_ext" (VStr "");;
  (b ← has_key "java_home";
   if negb (b : bool) then setattr "java_home" (VStr "/etc/alternatives/java_sdk")
   else mret tt).

Definition _setup_scientificlinux : M unit :=
  logger INFO "ScientificLinux setup";;
  setattr "pip_cmd" (VStr "pip-python");;
  (b ← has_key "java_home";
   if negb (b : bool) then setattr "java_home" (VStr "/etc/alternatives/java_sdk")
   else mret tt).

Definition _configure_sudo : M unit :=
  flag ← getattr_default "use_sudo" (VStr "true");
  lowered ← lift (py_lower flag);
  if bool_decide (lowered ∈ ["true"; "yes"]) then
    setattr "safe_sudo" (VExec Sudo);;
    setattr "use_sudo" (VBool true)
  else
    setattr "safe_sudo" (VExec Run);;
    setattr "use_sudo" (VBool false).

Definition _cloudman_compatibility : M unit :=
  system_install ← getattr "system_install";
  setattr "install_dir" system_install.

Definition _validate_target_distribution (w : world) (dist : value) : M unit :=
  distribution ← getattr "distribution";
  msg ← lift (py_concat "Checking target distribution " distribution);
  logger DEBUG msg;;
  if py_in_strs dist ["debian"; "ubuntu"] then
    tag ← run w "cat /proc/version";
    i ← lift (py_find (PyStr.lower tag) dist);
    if i =? -1 then
      tag2 ← run w "cat /etc/issue";
      i2 ← lift (py_find (PyStr.lower tag2) dist);
      if i2 =? -1 then
        err ← lift (py_concat
          "Distribution does not match machine; are you using correct fabconfig for " dist);
        raise (ValueError err)
      else mret tt
    else mret tt
  else
    logger DEBUG "Unknown target distro".

Definition _setup_nixpkgs : M unit :=
  b ← has_key "nixpkgs";
  nixpkgs ← (if b : bool then
               distribution ← getattr "distribution";
               if py_in_strs distribution ["debian"; "ubuntu"] then
                 requested ← getattr "nixpkgs";
                 if py_eq_str requested "True" then mret true else mret false
               else
                 msg ← lift (py_concat "NixPkgs are currently not supported for " distribution);
                 logger WARN msg;;
                 mret false
             else mret false);
  (if nixpkgs : bool then logger INFO "NixPkgs: supported"
   else logger DEBUG "NixPkgs: Ignored");;
  setattr "nixpkgs" (VBool nixpkgs).

Definition _setup_local_environment (w : world) : M unit :=
  logger INFO "Get local environment";;
  (b ← has_key "user";
   if negb (b : bool) then
     match w_environ w !! "USER" with
     | Some u => setattr "user" (VStr u)
     | None => raise (KeyError "USER")
     end
   else mret tt);;
  (b ← has_key "java_home";
   if negb (b : bool) then
     setattr "java_home"
       (VStr (default "/usr/lib/jvm/java-6-openjdk" (w_environ w !! "JAVA_HOME")))
   else mret tt).

(** [dict(pairs)]: every element has to be a pair, and a later pair
    replaces an earlier one with the same key.  (Python's message also
    gives the element's number and length.) *)
Fixpoint py_dict (pairs : list (list string)) (d : gmap string string)
  : result (gmap string string) :=
  match pairs with
  | [] => Ok d
  | [k; v] :: rest => py_dict rest (<[k:=v]> d)
  | _ :: _ => Raise (ValueError "dictionary update sequence element has the wrong length")
  end.

(** [dict([l.strip().split() for l in raw_ssh_config.split("\n") if l])] *)
Definition parse_ssh_config (raw_ssh_config : string) : result (gmap string string) :=
  py_dict
    (map (fun l => PyStr.split_ws (PyStr.strip l))
         (filter (fun l => l ≠ EmptyString) (PyStr.split_on PyStr.newline raw_ssh_config)))
    ∅.

(** [d[k]] *)
Definition getitem (d : gmap string string) (k : string) : M string :=
  match d !! k with
  | Some v => mret v
  | None => raise (KeyError k)
  end.

Definition _setup_vagrant_environment (w : world) : M unit :=
  logger INFO "Get vagrant environment";;
  raw_ssh_config ← (match w_vagrant w with
                    | Some out => mret out
                    | None => raise OSError
                    end);
  logger INFO raw_ssh_config;;
  ssh_config ← lift (parse_ssh_config raw_ssh_config);
  user ← getitem ssh_config "User";
  setattr "user" (VStr user);;
  host ← getitem ssh_config "HostName";
  setattr "hosts" (VList [host]);;
  port ← getitem ssh_config "Port";
  setattr "port" (VStr port);;
  env_user ← getattr "user";
  env_hosts ← getattr "hosts";
  env_host ← lift (py_first env_hosts);
  env_port ← getattr "port";
  host_string ← lift (py_percent "%s@%s:%s" [env_user; env_host; env_port]);
  setattr "host_string" (VStr host_string);;
  key ← getitem ssh_config "IdentityFile";
  setattr "key_filename" (VStr key);;
  env_host_string ← getattr "host_string";
  msg ← lift (py_percent "ssh %s" [env_host_string]);
  logger DEBUG msg.

Definition _setup_distribution_environment (w : world) : M unit :=
  distribution ← getattr "distribution";
  msg ← lift (py_percent "Distribution %s" [distribution]);
  logger INFO msg;;
  hosts ← getattr "hosts";
  (if bool_decide (hosts = VList ["vagrant"]) then _setup_vagrant_environment w
   else if bool_decide (hosts = VList ["localhost"]) then _setup_local_environment w
   else mret tt);;
  distribution ← getattr "distribution";
  (if py_eq_str distribution "ubuntu" then _setup_ubuntu
   else if py_eq_str distribution "centos" then _setup_centos
   else if py_eq_str distribution "scientificlinux" then _setup_scientificlinux
   else if py_eq_str distribution "debian" then _setup_debian
   else
     err ← lift (py_percent "Unexpected distribution %s" [distribution]);
     raise (ValueError err));;
  distribution ← getattr "distribution";
  _validate_target_distribution w distribution;;
  _cloudman_compatibility;;
  _setup_nixpkgs;;
  _configure_sudo;;
  machine ← run w "uname -m";
  setattr "is_64bit" (VBool (0 <? PyStr.find machine "_64")).

(** The dispatcher up to the end of host resolution (lines 14 to 19). *)
Definition setup_through_hosts (w : world) : M unit :=
  distribution ← getattr "distribution";
  msg ← lift (py_percent "Distribution %s" [distribution]);
  logger INFO msg;;
  hosts ← getattr "hosts";
  if bool_decide (hosts = VList ["vagrant"]) then _setup_vagrant_environment w
  else if bool_decide (hosts = VList ["localhost"]) then _setup_local_environment w
  else mret tt.

(** The choice of the profile (lines 20 to 29). *)
Definition setup_profile : M unit :=
  distribution ← getattr "distribution";
  if py_eq_str distribution "ubuntu" then _setup_ubuntu
  else if py_eq_str distribution "centos" then _setup_centos
  else if py_eq_str distribution "scientificlinux" then _setup_scientificlinux
  else if py_eq_str distribution "debian" then _setup_debian
  else
    err ← lift (py_percent "Unexpected distribution %s" [distribution]);
    raise (ValueError err).

(** The dispatcher up to the end of the validation (lines 14 to 30). *)
Definition setup_through_validation (w : world) : M unit :=
  setup_through_hosts w;;
  setup_profile;;
  distribution ← getattr "distribution";
  _validate_target_distribution w distribution.

(** The adjustors that follow the validation (lines 31 to 36). *)
Definition setup_from_shim (w : world) : M unit :=
  _cloudman_compatibility;;
  _setup_nixpkgs;;
  _configure_sudo;;
  machine ← run w "uname -m";
  setattr "is_64bit" (VBool (0 <? PyStr.find machine "_64")).

(** ** Vocabulary of the statements *)

(** [sub] occurs in [s]. *)
Definition occurs (sub s : string) : Prop :=
  exists pre suf, s = pre +:+ sub +:+ suf.

(** [sub] occurs in [s] when the case of the letters is ignored. *)
Definition occurs_ci (sub s : string) : Prop :=
  occurs (PyStr.lower sub) (PyStr.lower s).

(** No percent sign in [s]. *)
Fixpoint percent_free (s : string) : bool :=
  match s with
  | EmptyString => true
  | String c s' => negb (Ascii.eqb c "%") && percent_free s'
  end.

(** A template the substitution helper is meant for: no placeholder at
    all, or one placeholder after some text, with no other percent sign. *)
Definition simple_template (s : string) : Prop :=
  ~ occurs "%s" s \/
  exists pre suf, s = pre +:+ "%s" +:+ suf /\ pre <> "" /\
    percent_free pre = true /\ percent_free suf = true.

(** [o] is [s] with its placeholder, if any, replaced by [v]. *)
Definition substituted (v s o : string) : Prop :=
  (~ occurs "%s" s /\ o = s) \/
  exists pre suf, s = pre +:+ "%s" +:+ suf /\ pre <> "" /\
    percent_free pre = true /\ percent_free suf = true /\ o = pre +:+ v +:+ suf.

(** The empty context, used for the closed examples. *)
Definition empty_state : state := State ∅ [] [].

(** A property of [env] that a computation keeps, whether it returns or
    raises. *)
Definition stable {A} (P : gmap string value -> Prop) (m : M A) : Prop :=
  forall st, P (env st) -> P (env (m st).1).

(** Field [k] holds [x] (or is missing, for [None]). *)
Definition holds (k : string) (x : option value) : gmap string value -> Prop :=
  fun e => e !! k = x.

(** The four distribution profiles. *)
Inductive profile := Ubuntu | Centos | ScientificLinux | Debian.

Definition run_profile (p : profile) : M unit :=
  match p with
  | Ubuntu => _setup_ubuntu
  | Centos => _setup_centos
  | ScientificLinux => _setup_scientificlinux
  | Debian => _setup_debian
  end.

(** The tag that selects a profile. *)
Definition tag_of (p : profile) : string :=
  match p with
  | Ubuntu => "ubuntu"
  | Centos => "centos"
  | ScientificLinux => "scientificlinux"
  | Debian => "debian"
  end.

(** The fields a profile assigns whether or not they are set. *)
Definition assigned (p : profile) : list string :=
  match p with
  | Ubuntu | Debian =>
      ["sources_file"; "apt_preferences_file"; "python_version_ext";
       "ruby_version_ext"; "std_sources"]
  | Centos => ["python_version_ext"; "ruby_version_ext"]
  | ScientificLinux => ["pip_cmd"]
  end.

(** Equality of strings up to the case of the letters. *)
Definition eq_ci (a b : string) : Prop := PyStr.lower a = PyStr.lower b.

(** The [use_sudo] flag asks for sudo: it is unset, or it spells "true" or
    "yes" in any case. *)
Definition sudo_requested (flag : option string) : Prop :=
  match flag with
  | None => True
  | Some s => eq_ci s "true" \/ eq_ci s "yes"
  end.

(** The Debian family of distribution tags. *)
Definition debian_family (d : string) : Prop := d = "debian" \/ d = "ubuntu".

(** The standard output of [vagrant ssh-config] in the example of the
    specification: four lines, each ended by a newline. *)
Definition nl : string := String PyStr.newline EmptyString.

Definition vagrant_output : string :=
  "User vagrant" +:+ nl +:+ "HostName 127.0.0.1" +:+ nl +:+ "Port 2222" +:+ nl
  +:+ "IdentityFile /key" +:+ nl.

(** The message of the mismatch error of the validator. *)
Definition mismatch (tag : string) : exn :=
  ValueError
    ("Distribution does not match machine; are you using correct fabconfig for " +:+ tag).

(** What a profile leaves in the interpreter suffixes, given the context
    [before] it ran. *)
Definition suffixes_after (p : profile) (before after : gmap string value) : Prop :=
  match p with
  | Ubuntu | Debian =>
      after !! "python_version_ext" = Some (VStr "") /\
      after !! "ruby_version_ext" = Some (VStr "1.9.1")
  | Centos =>
      after !! "python_version_ext" = Some (VStr "2.6") /\
      after !! "ruby_version_ext" = Some (VStr "")
  | ScientificLinux =>
      after !! "python_version_ext" = before !! "python_version_ext" /\
      after !! "ruby_version_ext" = before !! "ruby_version_ext"
  end.

(** The four tags the dispatcher knows. *)
Definition known_tags : list string := ["ubuntu"; "centos"; "scientificlinux"; "debian"].

(** A CentOS machine reached by name, with every input the set-up reads. *)
Definition centos_world : world := World (fun _ => Some "x86_64") None ∅.

Definition centos_state : state :=
  State (<["distribution":=VStr "centos"]>
           (<["hosts":=VList ["host1"]]> {[ "system_install" := VStr "/usr" ]})) [] [].

(** A set-up of the local machine with a tag the dispatcher does not know. *)
Definition fedora_world : world := World (fun _ => None) None {[ "USER" := "bob" ]}.

Definition fedora_state : state :=
  State (<["distribution":=VStr "fedora"]> {[ "hosts" := VList ["localhost"] ]}) [] [].

(** The fields that only a distribution profile assigns. *)
Definition profile_only_fields : list string :=
  ["sources_file"; "apt_preferences_file"; "python_version_ext"; "ruby_version_ext";
   "pip_cmd"; "std_sources"].

(** The same machine, for a caller that did not set [system_install]. *)
Definition centos_bare_state : state :=
  State (<["distribution":=VStr "centos"]> {[ "hosts" := VList ["host1"] ]}) [] [].

(** The context of [centos_bare_state] after the profile and the validation. *)
Definition centos_validated_state : state :=
  State (<["java_home":=VStr "/etc/alternatives/java_sdk"]>
           (<["ruby_version_ext":=VStr ""]>
              (<["python_version_ext":=VStr "2.6"]> (env centos_bare_state))))
        [(INFO, "Distribution centos"); (INFO, "CentOS setup");
         (DEBUG, "Checking target distribution centos");
         (DEBUG, "Unknown target distro")] [].

(** An Ubuntu machine: the tag is in /etc/issue but not in /proc/version. *)
Definition ubuntu_world : world :=
  World (fun c => if String.eqb c "cat /proc/version"
                  then Some "Linux version 3.2.0 (gcc 4.6.3)"
                  else Some "Ubuntu 12.04 LTS") None ∅.

Definition ubuntu_state : state := State {[ "distribution" := VStr "ubuntu" ]} [] [].

(** A context in which the caller has set [python_version_ext]. *)
Definition python27_state : state := State {[ "python_version_ext" := VStr "2.7" ]} [] [].

(** The context after the shared Debian set-up: the two apt paths and the
    two interpreter suffixes are assigned, [java_home] is filled in. *)
Definition deb_general_env (e : gmap string value) : gmap string value :=
  let e' := <["ruby_version_ext":=VStr "1.9.1"]>
              (<["python_version_ext":=VStr ""]>
                 (<["apt_preferences_file":=VStr "/etc/apt/preferences"]>
                    (<["sources_file":=VStr "/etc/apt/sources.list.d/cloudbiolinux.list"]> e))) in
  match e !! "java_home" with
  | Some _ => e'
  | None => <["java_home":=VStr "/usr/lib/jvm/java-6-openjdk"]> e'
  end.

(** The package sources of the Ubuntu profile for the release [v]. *)
Definition ubuntu_sources (v : string) : list string :=
  ["deb http://au.archive.ubuntu.com/ubuntu/ " +:+ v +:+ " universe";
   "deb http://au.archive.ubuntu.com/ubuntu/ " +:+ v +:+ " multiverse";
   "deb http://au.archive.ubuntu.com/ubuntu/ " +:+ v +:+ "-updates universe";
   "deb http://au.archive.ubuntu.com/ubuntu/ " +:+ v +:+ "-updates multiverse";
   "deb http://archive.canonical.com/ubuntu " +:+ v +:+ " partner";
   "deb http://downloads-distro.mongodb.org/repo/ubuntu-upstart dist 10gen";
   "deb http://cran.ms.unimelb.edu.au/bin/linux/ubuntu " +:+ v +:+ "/";
   "deb http://archive.cloudera.com/debian maverick-cdh3 contrib";
   "deb http://archive.canonical.com/ubuntu " +:+ v +:+ " partner";
   "deb http://ppa.launchpad.net/freenx-team/ppa/ubuntu " +:+ v +:+ " main";
   "deb http://nebc.nox.ac.uk/bio-linux/ unstable bio-linux";
   "deb http://download.virtualbox.org/virtualbox/debian " +:+ v +:+ " contrib"].

(** The package sources of the Debian profile for the release [v]. *)
Definition debian_sources (v : string) : list string :=
  ["deb http://downloads-distro.mongodb.org/repo/debian-sysvinit dist 10gen";
   "deb http://cran.stat.ucla.edu/bin/linux/debian " +:+ v +:+ "-cran/";
   "deb http://archive.cloudera.com/debian lenny-cdh3 contrib";
   "deb http://nebc.nox.ac.uk/bio-linux/ unstable bio-linux";
   "deb http://download.virtualbox.org/virtualbox/debian " +:+ v +:+ " contrib"].

(** The words of the lines that the vagrant resolver hands to [dict]. *)
Definition config_words (raw_ssh_config : string) : list (list string) :=
  map (fun l => PyStr.split_ws (PyStr.strip l))
      (filter (fun l => l ≠ EmptyString) (PyStr.split_on PyStr.newline raw_ssh_config)).

(** What the local resolver leaves in [java_home]. *)
Definition local_java_home (w : world) (e : gmap string value) : value :=
  default (VStr (default "/usr/lib/jvm/java-6-openjdk" (w_environ w !! "JAVA_HOME")))
          (e !! "java_home").

(** A workstation with a user but no JAVA_HOME in its environment. *)
Definition bob_world : world := World (fun _ => None) None {[ "USER" := "bob" ]}.

(** A process environment without USER. *)
Definition anonymous_world : world := World (fun _ => None) None ∅.

(** The error of [dict] on an element that is not a pair. *)
Definition not_a_pair : exn :=
  ValueError "dictionary update sequence element has the wrong length".

(** An output of [vagrant ssh-config] with a line of two blanks. *)
Definition blank_line_output : string :=
  "User vagrant" +:+ nl +:+ "  " +:+ nl +:+ "Port 2222" +:+ nl.

(** An output that lacks the IdentityFile line. *)
Definition no_key_output : string :=
  "User vagrant" +:+ nl +:+ "HostName 127.0.0.1" +:+ nl +:+ "Port 2222" +:+ nl.

(** An output that names the port twice. *)
Definition two_ports_output : string :=
  "Port 22" +:+ nl +:+ "User vagrant" +:+ nl +:+ "Port 2222" +:+ nl.

Definition vagrant_world (raw : string) : world := World (fun _ => None) (Some raw) ∅.

(** What the sudo-policy selector makes of the flag [s]. *)
Definition sudo_flag (s : string) : bool :=
  bool_decide (PyStr.lower s ∈ ["true"; "yes"]).

(** A Debian context in which the overlay is requested. *)
Definition debian_nix_state : state :=
  State (<["nixpkgs":=VStr "True"]> {[ "distribution" := VStr "debian" ]}) [] [].

(** A machine that cannot be reached: every remote command aborts. *)
Definition unreachable_world : world := World (fun _ => None) None ∅.

(** A Debian machine whose /proc/version names the distribution; nothing
    else can be read from it. *)
Definition debian_proc_world : world :=
  World (fun c => if String.eqb c "cat /proc/version"
                  then Some "Linux version 2.6.32 (Debian 2.6.32-48)" else None) None ∅.

Definition debian_state : state := State {[ "distribution" := VStr "debian" ]} [] [].

(** A 32-bit CentOS machine. *)
Definition i686_world : world := World (fun _ => Some "i686") None ∅.

(** A Debian machine that answers CentOS to both reads of the validator. *)
Definition wrong_machine_world : world :=
  World (fun _ => Some "CentOS release 6.2 (Final)") None ∅.

Definition debian_squeeze_state : state :=
  State (<["distribution":=VStr "debian"]>
           (<["hosts":=VList ["host1"]]> {[ "dist_name" := VStr "squeeze" ]})) [] [].

(** The package sources of a Debian-family profile for the release [v]. *)
Definition family_sources (p : profile) (v : string) : list string :=
  match p with
  | Ubuntu => ubuntu_sources v
  | _ => debian_sources v
  end.

(** The live machine passes the validation of the tag: for debian and
    ubuntu, /proc/version can be read and names the tag, or else
    /etc/issue can be read and names it. *)
Definition machine_matches (w : world) (tag : string) : Prop :=
  debian_family tag ->
  exists o1, w_run w "cat /proc/version" = Some o1 /\
    (occurs_ci tag o1 \/
     exists o2, w_run w "cat /etc/issue" = Some o2 /\ occurs_ci tag o2).

(** The fields assigned by the adjustors that follow the validation. *)
Definition adjustor_fields : list string :=
  ["install_dir"; "nixpkgs"; "safe_sudo"; "use_sudo"; "is_64bit"].

(** An Ubuntu set-up with every input the dispatcher reads. *)
Definition ubuntu_full_state : state :=
  State (<["distribution":=VStr "ubuntu"]>
           (<["hosts":=VList ["host1"]]>
              (<["dist_name":=VStr "precise"]> {[ "system_install" := VStr "/usr" ]}))) [] [].

(** A machine that can be read: the answers of [ubuntu_world], and x86_64
    for the architecture. *)
Definition ubuntu_full_world : world :=
  World (fun c => if String.eqb c "cat /proc/version"
                  then Some "Linux version 3.2.0 (gcc 4.6.3)"
                  else if String.eqb c "cat /etc/issue" then Some "Ubuntu 12.04 LTS"
                  else Some "x86_64") None ∅.

(** Every field that some step of the set-up assigns. *)
Definition setup_fields : list string :=
  ["user"; "hosts"; "port"; "host_string"; "key_filename"; "java_home";
   "sources_file"; "apt_preferences_file"; "python_version_ext"; "ruby_version_ext";
   "std_sources"; "pip_cmd";
   "install_dir"; "nixpkgs"; "safe_sudo"; "use_sudo"; "is_64bit"].

(** The remote commands of the module. *)
Definition remote_reads : list string :=
  ["cat /proc/version"; "cat /etc/issue"; "uname -m"].

(** A computation that issues remote commands from [allowed] only. *)
Definition emits {A} (allowed : list string) (m : M A) : Prop :=
  forall st, exists l, cmds (m st).1 = (cmds st ++ l)%list /\ Forall (fun c => c ∈ allowed) l.

(** A computation whose remote commands are taken, in order and each at
    most once, from [pattern]. *)
Definition emits_sub {A} (pattern : list string) (m : M A) : Prop :=
  forall st, exists l, cmds (m st).1 = (cmds st ++ l)%list /\ sublist l pattern.

(** The values a profile assigns whether or not the fields are set. *)
Definition fixed_values (p : profile) : list (string * value) :=
  match p with
  | Ubuntu | Debian =>
      [("sources_file", VStr "/etc/apt/sources.list.d/cloudbiolinux.list");
       ("apt_preferences_file", VStr "/etc/apt/preferences");
       ("python_version_ext", VStr "");
       ("ruby_version_ext", VStr "1.9.1")]
  | Centos => [("python_version_ext", VStr "2.6"); ("ruby_version_ext", VStr "")]
  | ScientificLinux => [("pip_cmd", VStr "pip-python")]
  end.

(** The default a profile gives to [java_home]. *)
Definition java_home_default (p : profile) : value :=
  match p with
  | Ubuntu | Debian => VStr "/usr/lib/jvm/java-6-openjdk"
  | Centos | ScientificLinux => VStr "/etc/alternatives/java_sdk"
  end.

(** A context of a caller who chose a JDK and an interpreter suffix. *)
Definition custom_jdk_state : state :=
  State (<["java_home":=VStr "/custom/jdk"]>
           (<["dist_name":=VStr "precise"]> {[ "python_version_ext" := VStr "2.7" ]})) [] [].

(** * Properties *)

(** ** Sanity checks of the string primitives *)

Example lower_ex : PyStr.lower "Linux Version (Ubuntu 4.6)" = "linux version (ubuntu 4.6)".
Proof. reflexivity. Qed.

Example find_ex1 : PyStr.find "x86_64" "_64" = 3.
Proof. reflexivity. Qed.

Example find_ex2 : PyStr.find "i686" "_64" = -1.
Proof. reflexivity. Qed.

Example find_ex3 : PyStr.find "%s main" "%s" = 0.
Proof. reflexivity. Qed.

Example strip_ex : PyStr.strip "  Port 2222 " = "Port 2222".
Proof. reflexivity. Qed.

Example split_ws_ex : PyStr.split_ws "  Port   2222 " = ["Port"; "2222"].
Proof. reflexivity. Qed.

Example split_on_ex : PyStr.split_on PyStr.newline "a
b
" = ["a"; "b"; ""].
Proof. reflexivity. Qed.

Example format_ex1 : py_format "deb %s universe" ["precise"] = Ok "deb precise universe".
Proof. reflexivity. Qed.

Example format_ex2 : py_format "deb %s %s" ["precise"]
  = Raise (TypeError "not enough arguments for format string").
Proof. reflexivity. Qed.

Example format_ex3 : py_format "100%%s" ["precise"]
  = Raise (TypeError "not all arguments converted during string formatting").
Proof. reflexivity. Qed.

Example format_ex4 : py_format "%s@%s:%s" ["vagrant"; "127.0.0.1"; "2222"]
  = Ok "vagrant@127.0.0.1:2222".
Proof. reflexivity. Qed.

(** ** Occurrences and [find] *)

Section Find.

Lemma str_app_nil_r (s : string) : s +:+ "" = s.
Proof. induction s as [|c s IH]; [done | simpl; congruence]. Qed.

Lemma str_app_assoc (a b c : string) : (a +:+ b) +:+ c = a +:+ b +:+ c.
Proof. induction a as [|x a IH]; [done | simpl; congruence]. Qed.

Lemma prefix_app (sub suf : string) : String.prefix sub (sub +:+ suf) = true.
Proof.
  induction sub as [|c sub IH]; simpl; [by destruct suf |].
  destruct (ascii_dec c c); [done | congruence].
Qed.

Lemma prefix_inv (sub s : string) :
  String.prefix sub s = true -> exists suf, s = sub +:+ suf.
Proof.
  revert s. induction sub as [|c sub IH]; intros s H.
  - by exists s.
  - destruct s as [|d s]; simpl in H; [discriminate |].
    destruct (ascii_dec c d) as [->|]; [| discriminate].
    destruct (IH _ H) as [suf ->]. by exists suf.
Qed.

Lemma find_nat_unfold (sub s : string) :
  PyStr.find_nat sub s =
    if String.prefix sub s then Some 0%nat
    else match s with
         | EmptyString => None
         | String _ s' => S <$> PyStr.find_nat sub s'
         end.
Proof. by destruct s. Qed.

Lemma find_nat_Some (sub s : string) (n : nat) :
  PyStr.find_nat sub s = Some n ->
  exists pre suf, s = pre +:+ sub +:+ suf /\ String.length pre = n.
Proof.
  revert n. induction s as [|c s IH]; intros n; rewrite find_nat_unfold.
  - destruct (String.prefix sub "") eqn:Hp; [| done].
    intros [= <-]. destruct (prefix_inv _ _ Hp) as [suf ->]. by exists "", suf.
  - destruct (String.prefix sub (String c s)) eqn:Hp.
    + intros [= <-]. destruct (prefix_inv _ _ Hp) as [suf ->]. by exists "", suf.
    + destruct (PyStr.find_nat sub s) as [m|]; simpl; [| done].
      intros [= <-]. destruct (IH m eq_refl) as (pre & suf & -> & <-).
      by exists (String c pre), suf.
Qed.

Lemma find_nat_None (sub s : string) :
  PyStr.find_nat sub s = None -> ~ occurs sub s.
Proof.
  induction s as [|c s IH]; rewrite find_nat_unfold.
  - destruct (String.prefix sub "") eqn:Hp; [done |].
    intros _ (pre & suf & H). destruct pre; simpl in H; [| done].
    rewrite H, prefix_app in Hp. done.
  - destruct (String.prefix sub (String c s)) eqn:Hp; [done |].
    destruct (PyStr.find_nat sub s); simpl; [done |].
    intros _ (pre & suf & H). destruct pre as [|d pre]; simpl in H.
    + rewrite H, prefix_app in Hp. done.
    + injection H as -> ->. apply IH; [done |]. by exists pre, suf.
Qed.

(** [find] answers [-1] exactly when there is no occurrence. *)
Lemma find_minus_one (s sub : string) :
  PyStr.find s sub = -1 <-> ~ occurs sub s.
Proof.
  unfold PyStr.find. destruct (PyStr.find_nat sub s) as [n|] eqn:H.
  - split; [lia |]. intros Hn. destruct Hn.
    destruct (find_nat_Some _ _ _ H) as (pre & suf & -> & _). by exists pre, suf.
  - split; [| done]. intros _. by apply find_nat_None.
Qed.

(** [find] is positive exactly when [sub] occurs but not at the very start. *)
Lemma find_pos (s sub : string) :
  0 < PyStr.find s sub <-> occurs sub s /\ String.prefix sub s = false.
Proof.
  unfold PyStr.find. rewrite find_nat_unfold.
  destruct (String.prefix sub s) eqn:Hp.
  - split; [lia | intros [_ ?]; done].
  - destruct s as [|c s].
    + split; [lia |]. intros [(pre & suf & H) _].
      destruct pre; simpl in H; [| done]. rewrite H, prefix_app in Hp. done.
    + destruct (PyStr.find_nat sub s) as [n|] eqn:Hn; simpl.
      * split; [| lia]. intros _. split; [| done].
        destruct (find_nat_Some _ _ _ Hn) as (pre & suf & -> & _).
        by exists (String c pre), suf.
      * split; [lia |]. intros [(pre & suf & H) _].
        destruct pre as [|d pre]; simpl in H.
        -- rewrite H, prefix_app in Hp. done.
        -- injection H as -> ->. apply find_nat_None in Hn. destruct Hn.
           by exists pre, suf.
Qed.

End Find.

(** ** The [%] operator on templates with at most one placeholder *)

Section Format.

Lemma percent_free_app (a b : string) :
  percent_free (a +:+ b) = percent_free a && percent_free b.
Proof.
  induction a as [|c a IH]; simpl; [done |].
  rewrite IH. by rewrite andb_assoc.
Qed.

(** Text without a percent sign is copied. *)
Lemma format_go_percent_free (pre rest : string) (args : list string) :
  percent_free pre = true ->
  format_go (pre +:+ rest) args =
    result_bind (format_go rest args) (fun '(out, unused) => Ok (pre +:+ out, unused)).
Proof.
  induction pre as [|c pre IH]; simpl; intros H.
  - destruct (format_go rest args) as [[out unused]|]; done.
  - apply andb_true_iff in H as [Hc Hpre]. apply negb_true_iff in Hc.
    rewrite Hc, (IH Hpre).
    destruct (format_go rest args) as [[out unused]|]; done.
Qed.

Lemma format_go_plain (s : string) (args : list string) :
  percent_free s = true -> format_go s args = Ok (s, args).
Proof.
  intros H. rewrite <- (str_app_nil_r s) at 1.
  rewrite format_go_percent_free by done. simpl. by rewrite str_app_nil_r.
Qed.

(** One placeholder between two texts without a percent sign. *)
Lemma py_format_one (pre suf v : string) :
  percent_free pre = true -> percent_free suf = true ->
  py_format (pre +:+ "%s" +:+ suf) [v] = Ok (pre +:+ v +:+ suf).
Proof.
  intros Hpre Hsuf. unfold py_format.
  rewrite format_go_percent_free by done. simpl.
  by rewrite (format_go_plain suf) by done.
Qed.

(** A percent sign has to be there for [%s] to occur. *)
Lemma percent_free_no_placeholder (s : string) :
  percent_free s = true -> ~ occurs "%s" s.
Proof.
  intros H (pre & suf & ->).
  rewrite percent_free_app in H. apply andb_true_iff in H as [_ H]. done.
Qed.

End Format.

(** ** The source-version substitution helper *)

Section AddSourceVersions.

Lemma patch_source_no_placeholder (name : value) (s : string) :
  ~ occurs "%s" s -> patch_source name s = Ok s.
Proof.
  intros H. unfold patch_source.
  apply find_minus_one in H. rewrite H. done.
Qed.

Lemma patch_source_one_placeholder (v pre suf : string) :
  pre <> "" -> percent_free pre = true -> percent_free suf = true ->
  patch_source (VStr v) (pre +:+ "%s" +:+ suf) = Ok (pre +:+ v +:+ suf).
Proof.
  intros Hne Hpre Hsuf. unfold patch_source.
  assert (0 < PyStr.find (pre +:+ "%s" +:+ suf) "%s") as Hpos.
  { apply find_pos. split; [by exists pre, suf |].
    destruct pre as [|c pre]; [done |]. simpl in Hpre.
    change (String c pre +:+ "%s" +:+ suf) with (String c (pre +:+ "%s" +:+ suf)).
    cbn [String.prefix].
    destruct (ascii_dec "%" c) as [<-|]; [| done].
    by rewrite Ascii.eqb_refl in Hpre. }
  apply Z.ltb_lt in Hpos. rewrite Hpos.
  unfold py_percent. simpl. by apply py_format_one.
Qed.

Lemma patch_sources_no_placeholder (name : value) (sources : list string) :
  Forall (fun s => ~ occurs "%s" s) sources -> patch_sources name sources = Ok sources.
Proof.
  induction 1 as [|s l Hs _ IH]; simpl; [done |].
  by rewrite patch_source_no_placeholder, IH.
Qed.

Lemma patch_sources_simple (v : string) (sources : list string) :
  Forall simple_template sources ->
  exists out, patch_sources (VStr v) sources = Ok out /\ Forall2 (substituted v) sources out.
Proof.
  induction 1 as [|s l Hs _ (out & IH & Hout)]; simpl.
  - exists []. split; [done | constructor].
  - destruct Hs as [Hs | (pre & suf & -> & Hne & Hpre & Hsuf)].
    + rewrite patch_source_no_placeholder, IH by done. simpl.
      exists (s :: out). split; [done |]. constructor; [| done]. by left.
    + rewrite patch_source_one_placeholder, IH by done. simpl.
      eexists. split; [done |]. constructor; [| done].
      right. by exists pre, suf.
Qed.

Lemma source_line (v : string) :
  py_percent "Source=%s" [VStr v] = Ok ("Source=" +:+ v).
Proof.
  pose proof (py_format_one "Source=" "" v eq_refl eq_refl) as H.
  rewrite (str_app_nil_r v) in H. exact H.
Qed.

(** What the helper does beside computing the list: one debug line. *)
Lemma add_source_versions_run (v : string) (sources : list string) (st : state) :
  _add_source_versions (VStr v) sources st =
    (State (env st) (log st ++ [(DEBUG, "Source=" +:+ v)]) (cmds st),
     patch_sources (VStr v) sources).
Proof.
  unfold _add_source_versions, mbind, M_bind, lift, logger.
  by rewrite source_line.
Qed.

End AddSourceVersions.

(** Testable property 4 of the specification. *)
Example add_source_versions_precise :
  (_add_source_versions (VStr "precise") ["deb %s universe"; "deb foo"] empty_state).2
  = Ok ["deb precise universe"; "deb foo"].
Proof. reflexivity. Qed.

(** The guard of the loop is [find > 0]: a placeholder at the very start of
    a template is not substituted. *)
Example add_source_versions_leading_placeholder :
  (_add_source_versions (VStr "precise") ["%s main"] empty_state).2 = Ok ["%s main"].
Proof. reflexivity. Qed.

(** C3, as stated, fails: on a template with two placeholders the helper
    returns no list at all, the [%] operator raises. *)
Lemma add_source_versions_two_placeholders :
  (_add_source_versions (VStr "precise") ["deb %s %s"] empty_state).2
  = Raise (TypeError "not enough arguments for format string").
Proof. reflexivity. Qed.

(** C3, amended: for every version string [v] and every list of templates
    each of which has either no placeholder, or exactly one placeholder
    that follows some text and no other percent sign, the helper returns a
    list of the same length and in the same order, in which each template
    with a placeholder has it replaced by [v] and each template without one
    is unchanged.  The context is left as it was, apart from one debug line
    of the logger. *)
Theorem add_source_versions_simple_templates
    (v : string) (sources : list string) (st : state) :
  Forall simple_template sources ->
  exists out,
    _add_source_versions (VStr v) sources st =
      (State (env st) (log st ++ [(DEBUG, "Source=" +:+ v)]) (cmds st), Ok out) /\
    length out = length sources /\
    Forall2 (substituted v) sources out.
Proof.
  intros H. destruct (patch_sources_simple v sources H) as (out & Hrun & Hout).
  exists out. rewrite add_source_versions_run, Hrun.
  split; [done |]. split; [| done].
  symmetry. by eapply Forall2_length.
Qed.

Lemma add_source_versions_simple_templates_witness :
  Forall simple_template ["deb %s universe"; "deb foo"] /\
  exists out,
    _add_source_versions (VStr "precise") ["deb %s universe"; "deb foo"] empty_state =
      (State ∅ [(DEBUG, "Source=precise")] [], Ok out) /\
    length out = 2%nat /\
    Forall2 (substituted "precise") ["deb %s universe"; "deb foo"] out.
Proof.
  assert (Forall simple_template ["deb %s universe"; "deb foo"]) as H.
  { constructor; [| constructor; [| constructor]].
    - right. exists "deb ", " universe". repeat split; done.
    - left. by apply percent_free_no_placeholder. }
  split; [exact H |].
  exact (add_source_versions_simple_templates "precise" _ empty_state H).
Defined.

(** C9: for every version string [v], the helper returns a list whose
    templates contain no placeholder unchanged, without touching the
    context; hence applying it to its own result changes nothing. *)
Theorem add_source_versions_placeholder_free
    (v : string) (sources : list string) (st : state) :
  Forall (fun s => ~ occurs "%s" s) sources ->
  (_add_source_versions (VStr v) sources st).2 = Ok sources /\
  env (_add_source_versions (VStr v) sources st).1 = env st /\
  forall out st',
    (_add_source_versions (VStr v) sources st).2 = Ok out ->
    (_add_source_versions (VStr v) out st').2 = Ok out.
Proof.
  intros H. rewrite add_source_versions_run. cbn [fst snd env].
  rewrite patch_sources_no_placeholder by done.
  split; [done |]. split; [done |].
  intros out st' [= <-]. rewrite add_source_versions_run. cbn [snd].
  by apply patch_sources_no_placeholder.
Qed.

Lemma add_source_versions_placeholder_free_witness :
  Forall (fun s => ~ occurs "%s" s) ["deb foo bar"] /\
  (_add_source_versions (VStr "precise") ["deb foo bar"] empty_state).2 = Ok ["deb foo bar"].
Proof.
  assert (Forall (fun s => ~ occurs "%s" s) ["deb foo bar"]) as H.
  { constructor; [| constructor]. by apply percent_free_no_placeholder. }
  split; [exact H |].
  exact (proj1 (add_source_versions_placeholder_free "precise" _ empty_state H)).
Defined.

(** ** The set-up monad *)

Lemma run_bind {A B} (m : M A) (f : A -> M B) (st : state) :
  (m ≫= f) st =
    match m st with
    | (st', Ok a) => f a st'
    | (st', Raise e) => (st', Raise e)
    end.
Proof. reflexivity. Qed.

Lemma run_bind_ok {A B} (m : M A) (f : A -> M B) (st st' : state) (a : A) :
  m st = (st', Ok a) -> (m ≫= f) st = f a st'.
Proof. intros H. by rewrite run_bind, H. Qed.

Lemma run_bind_raise {A B} (m : M A) (f : A -> M B) (st st' : state) (e : exn) :
  m st = (st', Raise e) -> (m ≫= f) st = (st', Raise e).
Proof. intros H. by rewrite run_bind, H. Qed.

Lemma bind_assoc {A B C} (m : M A) (f : A -> M B) (g : B -> M C) (st : state) :
  ((m ≫= f) ≫= g) st = (m ≫= (fun a => f a ≫= g)) st.
Proof. rewrite !run_bind. by destruct (m st) as [st' [a|e]]. Qed.

Lemma bind_ext {A B} (m : M A) (f g : A -> M B) (st : state) :
  (forall a st', f a st' = g a st') -> (m ≫= f) st = (m ≫= g) st.
Proof. intros H. rewrite !run_bind. by destruct (m st) as [st' [a|e]]. Qed.

(** ** Properties of the context that a computation keeps *)

Section Stable.

Context {A B : Type} (P : gmap string value -> Prop).

Lemma stable_bind (m : M A) (f : A -> M B) :
  stable P m -> (forall a, stable P (f a)) -> stable P (m ≫= f).
Proof.
  intros Hm Hf st HP. rewrite run_bind.
  specialize (Hm st HP). destruct (m st) as [st' [a|e]]; [| done].
  by apply Hf.
Qed.

Lemma stable_mret (a : A) : stable P (mret a).
Proof. by intros st. Qed.

Lemma stable_raise (e : exn) : stable P (raise e : M A).
Proof. by intros st. Qed.

Lemma stable_lift (r : result A) : stable P (lift r).
Proof. by intros st. Qed.

Lemma stable_getattr (k : string) : stable P (getattr k).
Proof. intros st HP. unfold getattr. by destruct (env st !! k). Qed.

Lemma stable_getattr_default (k : string) (d : value) : stable P (getattr_default k d).
Proof. by intros st. Qed.

Lemma stable_has_key (k : string) : stable P (has_key k).
Proof. by intros st. Qed.

Lemma stable_logger (lvl : level) (msg : string) : stable P (logger lvl msg).
Proof. by intros st. Qed.

Lemma stable_run (w : world) (cmd : string) : stable P (run w cmd).
Proof. intros st HP. unfold run. by destruct (w_run w cmd). Qed.

Lemma stable_getitem (d : gmap string string) (k : string) : stable P (getitem d k).
Proof. intros st HP. unfold getitem. by destruct (d !! k). Qed.

Lemma stable_setattr (k : string) (v : value) :
  (forall e, P e -> P (<[k:=v]> e)) -> stable P (setattr k v).
Proof. intros H st HP. by apply H. Qed.

End Stable.

Lemma holds_insert_ne (k k' : string) (x : option value) (v : value) (e : gmap string value) :
  k' <> k -> holds k x e -> holds k x (<[k':=v]> e).
Proof. unfold holds. intros Hne <-. by apply lookup_insert_ne. Qed.

(** [if not env.has_key(k): env.k = d] keeps a field that is set. *)
Lemma stable_fill (k : string) (v d : value) :
  stable (holds k (Some v))
    (b ← has_key k; if negb (b : bool) then setattr k d else mret tt).
Proof.
  intros st H. unfold holds in H. unfold mbind, M_bind, has_key. simpl.
  rewrite H. by rewrite bool_decide_eq_true_2.
Qed.

Create HintDb stable discriminated.

#[export] Hint Resolve stable_mret stable_raise stable_lift stable_getattr
  stable_getattr_default stable_has_key stable_logger stable_run stable_getitem : stable.

(** A field is kept by any assignment to another field. *)
Ltac stable_setattr :=
  apply stable_setattr; intros ? ?; apply holds_insert_ne; [| assumption];
  first [ discriminate | congruence | (intros ->; tauto) ].

(** Walks through a computation statement by statement. *)
Ltac stable_step :=
  lazymatch goal with
  | |- stable (holds ?k (Some _)) (has_key ?k ≫= _) => apply stable_fill
  | |- stable _ (_ ≫= _) => apply stable_bind; [| intros ?]
  | |- stable _ (setattr _ _) => stable_setattr
  | |- stable _ (if ?b then _ else _) => destruct b
  | |- stable _ (match ?x with _ => _ end) => destruct x
  | |- stable _ (let _ := _ in _) => cbv zeta
  | |- stable _ _ => solve [auto with stable]
  end.

Ltac solve_stable := repeat stable_step.

(** Reads a field through the assignments made on top of a context. *)
Ltac simpl_lookup :=
  repeat first [rewrite lookup_insert_eq | rewrite lookup_insert_ne by done].

(** Proves [k ∉ [k1; ...; kn]] for strings that are written out. *)
Ltac solve_not_elem :=
  repeat (apply not_elem_of_cons; split; [discriminate |]); apply not_elem_of_nil.

(** Splits [k ∉ [k1; ...; kn]] into the inequalities. *)
Ltac split_not_elem H :=
  repeat (apply not_elem_of_cons in H; destruct H as [? H]); clear H.

(** ** The distribution profiles *)

Section Profiles.

Lemma stable_add_source_versions (P : gmap string value -> Prop)
    (version : value) (sources : list string) :
  stable P (_add_source_versions version sources).
Proof. unfold _add_source_versions. solve_stable. Qed.

Lemma profile_keeps_set_java_home (p : profile) (v : value) :
  stable (holds "java_home" (Some v)) (run_profile p).
Proof.
  destruct p; unfold run_profile, _setup_ubuntu, _setup_debian, _setup_centos,
    _setup_scientificlinux, _setup_deb_general;
    solve_stable; apply stable_add_source_versions.
Qed.

Lemma profile_frame (p : profile) (k : string) (x : option value) :
  k ∉ "java_home" :: assigned p -> stable (holds k x) (run_profile p).
Proof.
  intros H. destruct p; simpl in H; split_not_elem H;
    unfold run_profile, _setup_ubuntu, _setup_debian, _setup_centos,
      _setup_scientificlinux, _setup_deb_general;
    solve_stable; apply stable_add_source_versions.
Qed.

End Profiles.

(** C1, as stated, fails: a profile assigns its interpreter suffixes
    whether or not they are set.  Here [python_version_ext] is pre-set to
    ["2.7"] and the CentOS profile replaces it by ["2.6"]. *)
Lemma centos_overwrites_python_version_ext :
  env python27_state !! "python_version_ext" = Some (VStr "2.7") /\
  env (_setup_centos python27_state).1 !! "python_version_ext" = Some (VStr "2.6").
Proof. split; reflexivity. Qed.

(** The example of the specification, for each of the four profiles. *)
Lemma custom_jdk_kept (p : profile) (st : state) :
  env st !! "java_home" = Some (VStr "/custom/jdk") ->
  env (run_profile p st).1 !! "java_home" = Some (VStr "/custom/jdk").
Proof. intros H. by apply (profile_keeps_set_java_home p _ st). Qed.

(** ** The sudo-policy selector *)

Lemma lowered_in_true_yes (s : string) :
  PyStr.lower s ∈ ["true"; "yes"] <-> eq_ci s "true" \/ eq_ci s "yes".
Proof.
  unfold eq_ci. change (PyStr.lower "true") with "true".
  change (PyStr.lower "yes") with "yes".
  rewrite !elem_of_cons, elem_of_nil. tauto.
Qed.

(** C5, amended: after the selector runs on a context whose [use_sudo] is
    unset or is a string: if the flag is unset or spells "true" or "yes" in any
    case, [use_sudo] is [True] and [safe_sudo] is bound to [sudo];
    otherwise [use_sudo] is [False] and [safe_sudo] is bound to [run].
    Nothing else changes and the selector returns. *)
Theorem configure_sudo_policy (st : state) (flag : option string) :
  env st !! "use_sudo" = VStr <$> flag ->
  (sudo_requested flag ->
   _configure_sudo st =
     (State (<["use_sudo":=VBool true]> (<["safe_sudo":=VExec Sudo]> (env st)))
            (log st) (cmds st), Ok tt)) /\
  (~ sudo_requested flag ->
   _configure_sudo st =
     (State (<["use_sudo":=VBool false]> (<["safe_sudo":=VExec Run]> (env st)))
            (log st) (cmds st), Ok tt)).
Proof.
  intros H. unfold _configure_sudo, mbind, M_bind, getattr_default, lift. rewrite H.
  destruct flag as [s|]; simpl.
  - case_bool_decide as Hin; rewrite lowered_in_true_yes in Hin; split; intros Hs;
      done.
  - split; [done |]. intros Hs. by destruct Hs.
Qed.

Lemma configure_sudo_policy_witness :
  env (State {[ "use_sudo" := VStr "no" ]} [] []) !! "use_sudo" = VStr <$> Some "no" /\
  ~ sudo_requested (Some "no") /\
  _configure_sudo (State {[ "use_sudo" := VStr "no" ]} [] []) =
    (State (<["use_sudo":=VBool false]>
             (<["safe_sudo":=VExec Run]> {[ "use_sudo" := VStr "no" ]})) [] [], Ok tt).
Proof.
  assert (env (State {[ "use_sudo" := VStr "no" ]} [] []) !! "use_sudo"
          = VStr <$> Some "no") as H by reflexivity.
  assert (~ sudo_requested (Some "no")) as Hn.
  { intros [Hs | Hs]; discriminate Hs. }
  split; [exact H |]. split; [exact Hn |].
  exact (proj2 (configure_sudo_policy _ _ H) Hn).
Defined.

(** The two examples of the specification. *)
Example configure_sudo_unset :
  forall e : gmap string value, e = env (_configure_sudo empty_state).1 ->
  e !! "use_sudo" = Some (VBool true) /\ e !! "safe_sudo" = Some (VExec Sudo).
Proof. intros e ->. split; reflexivity. Qed.

Example configure_sudo_no :
  forall e : gmap string value,
  e = env (_configure_sudo (State {[ "use_sudo" := VStr "no" ]} [] [])).1 ->
  e !! "use_sudo" = Some (VBool false) /\ e !! "safe_sudo" = Some (VExec Run).
Proof. intros e ->. split; reflexivity. Qed.

Example configure_sudo_mixed_case :
  forall e : gmap string value,
  e = env (_configure_sudo (State {[ "use_sudo" := VStr "YeS" ]} [] [])).1 ->
  e !! "use_sudo" = Some (VBool true) /\ e !! "safe_sudo" = Some (VExec Sudo).
Proof. intros e ->. split; reflexivity. Qed.

(** C5, as stated, fails: a flag that is not a string is neither "true"
    nor "yes", yet it does not give [use_sudo] = [False] and [run].  The
    selector calls [lower] on it and raises: with the boolean [True] in
    the field, [use_sudo] stays [True] and [safe_sudo] is not bound. *)
Lemma configure_sudo_boolean_flag :
  env (State {[ "use_sudo" := VBool true ]} [] []) !! "use_sudo" = Some (VBool true) /\
  (_configure_sudo (State {[ "use_sudo" := VBool true ]} [] [])).2
    = Raise (AttributeError "lower") /\
  env (_configure_sudo (State {[ "use_sudo" := VBool true ]} [] [])).1 !! "use_sudo"
    = Some (VBool true) /\
  env (_configure_sudo (State {[ "use_sudo" := VBool true ]} [] [])).1 !! "safe_sudo"
    = None.
Proof. repeat split; reflexivity. Qed.

(** The boolean that the selector leaves is such a flag. *)
Example configure_sudo_twice :
  (_configure_sudo (_configure_sudo empty_state).1).2 = Raise (AttributeError "lower").
Proof. reflexivity. Qed.

(** ** The overlay toggle *)

Lemma in_debian_family (d : string) :
  py_in_strs (VStr d) ["debian"; "ubuntu"] = bool_decide (debian_family d).
Proof.
  unfold py_in_strs. cbn [existsb py_eq_str].
  destruct (String.eqb_spec d "debian") as [->|H1]; cbn [orb].
  { symmetry. apply bool_decide_eq_true_2. by left. }
  destruct (String.eqb_spec d "ubuntu") as [->|H2]; cbn [orb].
  { symmetry. apply bool_decide_eq_true_2. by right. }
  symmetry. apply bool_decide_eq_false_2. by intros [?|?].
Qed.

Lemma eq_str_True (v : value) : py_eq_str v "True" = bool_decide (v = VStr "True").
Proof.
  destruct v as [s| | |]; cbn [py_eq_str];
    try (symmetry; by apply bool_decide_eq_false_2).
  destruct (String.eqb_spec s "True") as [->|H]; symmetry.
  - by apply bool_decide_eq_true_2.
  - apply bool_decide_eq_false_2. by intros [= ->].
Qed.

(** The toggle, run on a context whose distribution tag is a string. *)
Lemma setup_nixpkgs_run (st : state) (d : string) :
  env st !! "distribution" = Some (VStr d) ->
  _setup_nixpkgs st =
    let on := bool_decide (env st !! "nixpkgs" = Some (VStr "True") /\ debian_family d) in
    let warned := bool_decide (is_Some (env st !! "nixpkgs") /\ ~ debian_family d) in
    (State (<["nixpkgs":=VBool on]> (env st))
       (log st
        ++ (if warned then [(WARN, "NixPkgs are currently not supported for " +:+ d)] else [])
        ++ [if on then (INFO, "NixPkgs: supported") else (DEBUG, "NixPkgs: Ignored")])
       (cmds st), Ok tt).
Proof.
  intros Hd. unfold _setup_nixpkgs, mbind, M_bind, has_key, getattr, lift, logger,
    setattr, mret, M_ret. cbn [env log cmds].
  destruct (env st !! "nixpkgs") as [v|] eqn:Hv.
  - rewrite (bool_decide_eq_true_2 (is_Some (Some v))) by done.
    rewrite Hd, in_debian_family. case_bool_decide as Hfam.
    + cbv beta iota. cbn [env]. rewrite Hv. cbv beta iota. rewrite eq_str_True.
      rewrite (bool_decide_eq_false_2 (_ /\ ~ _)) by (intros [_ ?]; done).
      case_bool_decide as Hreq.
      * subst v. rewrite bool_decide_eq_true_2 by done. done.
      * rewrite bool_decide_eq_false_2; [done |]. intros [[= ->] _]. done.
    + cbv beta iota. cbn [py_concat env log cmds].
      rewrite (bool_decide_eq_true_2 (_ /\ ~ _)) by done.
      rewrite bool_decide_eq_false_2 by (intros [_ ?]; done).
      by rewrite <- app_assoc.
  - rewrite (bool_decide_eq_false_2 (is_Some None)) by by intros [? ?].
    rewrite bool_decide_eq_false_2 by (intros [? _]; done).
    rewrite bool_decide_eq_false_2 by (intros [[? ?] _]; done).
    done.
Qed.

(** C6, amended: after the toggle runs on a context whose distribution tag
    is the string [d], [nixpkgs] is a boolean, and it is [True] exactly when the
    field held the string "True" before and [d] is debian or ubuntu.  When
    the field was set and [d] is outside the Debian family, the toggle logs
    a warning and still returns. *)
Theorem setup_nixpkgs_toggle (st : state) (d : string) :
  env st !! "distribution" = Some (VStr d) ->
  (_setup_nixpkgs st).2 = Ok tt /\
  (exists b : bool,
     env (_setup_nixpkgs st).1 !! "nixpkgs" = Some (VBool b) /\
     (b = true <-> env st !! "nixpkgs" = Some (VStr "True") /\ debian_family d)) /\
  (is_Some (env st !! "nixpkgs") -> ~ debian_family d ->
   log (_setup_nixpkgs st).1 =
     (log st ++ [(WARN, "NixPkgs are currently not supported for " +:+ d);
                 (DEBUG, "NixPkgs: Ignored")])%list).
Proof.
  intros Hd. rewrite (setup_nixpkgs_run st d Hd). cbv zeta. cbn [fst snd env log].
  split; [done |]. split.
  - eexists. rewrite lookup_insert_eq. split; [done |]. by rewrite bool_decide_eq_true.
  - intros Hs Hn. rewrite (bool_decide_eq_true_2 (_ /\ ~ _)) by done.
    by rewrite bool_decide_eq_false_2 by (intros [_ ?]; done).
Qed.

Lemma setup_nixpkgs_toggle_witness :
  env (State (<["nixpkgs":=VStr "True"]> {[ "distribution" := VStr "centos" ]}) [] [])
    !! "distribution" = Some (VStr "centos") /\
  (_setup_nixpkgs
     (State (<["nixpkgs":=VStr "True"]> {[ "distribution" := VStr "centos" ]}) [] [])).2
  = Ok tt.
Proof.
  assert (env (State (<["nixpkgs":=VStr "True"]> {[ "distribution" := VStr "centos" ]}) [] [])
            !! "distribution" = Some (VStr "centos")) as H by reflexivity.
  split; [exact H |].
  exact (proj1 (setup_nixpkgs_toggle _ "centos" H)).
Defined.

(** The two examples of the specification. *)
Example setup_nixpkgs_centos :
  forall st : state,
  st = (_setup_nixpkgs
          (State (<["nixpkgs":=VStr "True"]> {[ "distribution" := VStr "centos" ]}) [] [])).1 ->
  env st !! "nixpkgs" = Some (VBool false) /\
  log st = [(WARN, "NixPkgs are currently not supported for centos");
            (DEBUG, "NixPkgs: Ignored")].
Proof. intros st ->. split; reflexivity. Qed.

Example setup_nixpkgs_debian :
  forall st : state,
  st = (_setup_nixpkgs
          (State (<["nixpkgs":=VStr "True"]> {[ "distribution" := VStr "debian" ]}) [] [])).1 ->
  env st !! "nixpkgs" = Some (VBool true) /\ log st = [(INFO, "NixPkgs: supported")].
Proof. intros st ->. split; reflexivity. Qed.

(** C6, as stated, fails: the request has to be the string "True".  With
    the boolean [True] in the field on debian, the toggle returns with
    [nixpkgs] = [False], and logs that the overlay is ignored. *)
Lemma setup_nixpkgs_boolean_request :
  (_setup_nixpkgs
     (State (<["nixpkgs":=VBool true]> {[ "distribution" := VStr "debian" ]}) [] [])).2
    = Ok tt /\
  env (_setup_nixpkgs
         (State (<["nixpkgs":=VBool true]> {[ "distribution" := VStr "debian" ]}) [] [])).1
    !! "nixpkgs" = Some (VBool false) /\
  log (_setup_nixpkgs
         (State (<["nixpkgs":=VBool true]> {[ "distribution" := VStr "debian" ]}) [] [])).1
    = [(DEBUG, "NixPkgs: Ignored")].
Proof. repeat split; reflexivity. Qed.

(** The same for the string in lower case. *)
Example setup_nixpkgs_lower_case :
  env (_setup_nixpkgs
         (State (<["nixpkgs":=VStr "true"]> {[ "distribution" := VStr "debian" ]}) [] [])).1
    !! "nixpkgs" = Some (VBool false).
Proof. reflexivity. Qed.

(** ** The vagrant-style host resolver *)

Lemma host_string_format (user host port : string) :
  py_percent "%s@%s:%s" [VStr user; VStr host; VStr port]
  = Ok (user +:+ "@" +:+ host +:+ ":" +:+ port).
Proof.
  unfold py_percent, py_format. cbn. by rewrite (str_app_nil_r port).
Qed.

Lemma ssh_line (s : string) : py_percent "ssh %s" [VStr s] = Ok ("ssh " +:+ s).
Proof.
  pose proof (py_format_one "ssh " "" s eq_refl eq_refl) as H.
  rewrite (str_app_nil_r s) in H. exact H.
Qed.

(** The resolver on an output that parses to a dictionary with the four
    keys it reads. *)
Lemma setup_vagrant_environment_run (w : world) (st : state)
    (raw user host port key : string) (d : gmap string string) :
  w_vagrant w = Some raw ->
  parse_ssh_config raw = Ok d ->
  d !! "User" = Some user -> d !! "HostName" = Some host ->
  d !! "Port" = Some port -> d !! "IdentityFile" = Some key ->
  _setup_vagrant_environment w st =
    (State
       (<["key_filename":=VStr key]>
          (<["host_string":=VStr (user +:+ "@" +:+ host +:+ ":" +:+ port)]>
             (<["port":=VStr port]>
                (<["hosts":=VList [host]]> (<["user":=VStr user]> (env st))))))
       (log st ++ [(INFO, "Get vagrant environment"); (INFO, raw);
                   (DEBUG, "ssh " +:+ user +:+ "@" +:+ host +:+ ":" +:+ port)])
       (cmds st), Ok tt).
Proof.
  intros Hw Hparse Hu Hh Hp Hk.
  unfold _setup_vagrant_environment, mbind, M_bind, logger, setattr, getattr, lift,
    getitem, mret, M_ret. rewrite Hw. cbn [env log cmds]. rewrite Hparse, Hu, Hh, Hp, Hk.
  cbn [env log cmds].
  repeat (first [rewrite lookup_insert_eq | rewrite lookup_insert_ne by done];
          cbn [env log cmds py_first]).
  rewrite host_string_format.
  repeat (first [rewrite lookup_insert_eq | rewrite lookup_insert_ne by done];
          cbn [env log cmds py_first]).
  rewrite ssh_line. cbn [env log cmds]. by rewrite <- !app_assoc.
Qed.

Lemma parse_vagrant_output :
  parse_ssh_config vagrant_output =
    Ok (<["IdentityFile":="/key"]> (<["Port":="2222"]>
         (<["HostName":="127.0.0.1"]> (<["User":="vagrant"]> ∅)))).
Proof. vm_compute. reflexivity. Qed.

(** C8: on the standard output "User vagrant", "HostName 127.0.0.1",
    "Port 2222", "IdentityFile /key" (one per line) of [vagrant ssh-config],
    the resolver returns and leaves [user] = "vagrant", [hosts] =
    ["127.0.0.1"], [port] = "2222", [key_filename] = "/key" and
    [host_string] = "vagrant@127.0.0.1:2222" in the context. *)
Theorem setup_vagrant_environment_example (w : world) (st : state) :
  w_vagrant w = Some vagrant_output ->
  (_setup_vagrant_environment w st).2 = Ok tt /\
  env (_setup_vagrant_environment w st).1 !! "user" = Some (VStr "vagrant") /\
  env (_setup_vagrant_environment w st).1 !! "hosts" = Some (VList ["127.0.0.1"]) /\
  env (_setup_vagrant_environment w st).1 !! "port" = Some (VStr "2222") /\
  env (_setup_vagrant_environment w st).1 !! "key_filename" = Some (VStr "/key") /\
  env (_setup_vagrant_environment w st).1 !! "host_string"
    = Some (VStr "vagrant@127.0.0.1:2222").
Proof.
  intros Hw.
  rewrite (setup_vagrant_environment_run w st vagrant_output
             "vagrant" "127.0.0.1" "2222" "/key" _ Hw parse_vagrant_output)
    by (vm_compute; reflexivity).
  cbn [fst snd env].
  repeat split;
    repeat (first [rewrite lookup_insert_eq | rewrite lookup_insert_ne by done]);
    reflexivity.
Qed.

Lemma setup_vagrant_environment_example_witness :
  w_vagrant (World (fun _ => None) (Some vagrant_output) ∅) = Some vagrant_output /\
  env (_setup_vagrant_environment (World (fun _ => None) (Some vagrant_output) ∅)
         empty_state).1 !! "host_string" = Some (VStr "vagrant@127.0.0.1:2222").
Proof.
  split; [reflexivity |].
  exact (proj2 (proj2 (proj2 (proj2 (proj2
    (setup_vagrant_environment_example
       (World (fun _ => None) (Some vagrant_output) ∅) empty_state eq_refl)))))).
Defined.

(** An output without the [User] line: the lookup in the dictionary fails. *)
Example setup_vagrant_environment_no_user :
  (_setup_vagrant_environment (World (fun _ => None) (Some "") ∅) empty_state).2
  = Raise (KeyError "User").
Proof. vm_compute. reflexivity. Qed.

(** ** The target validator *)

Section Validator.

Variable w : world.

(** On a tag of the Debian family, when both reads return. *)
Lemma validate_debian_run (st : state) (tag o1 o2 : string) :
  debian_family tag ->
  env st !! "distribution" = Some (VStr tag) ->
  w_run w "cat /proc/version" = Some o1 ->
  w_run w "cat /etc/issue" = Some o2 ->
  _validate_target_distribution w (VStr tag) st =
    let checking := (DEBUG, "Checking target distribution " +:+ tag) in
    if PyStr.find (PyStr.lower o1) tag =? -1 then
      (State (env st) (log st ++ [checking])
             (cmds st ++ ["cat /proc/version"; "cat /etc/issue"]),
       if PyStr.find (PyStr.lower o2) tag =? -1 then Raise (mismatch tag) else Ok tt)
    else
      (State (env st) (log st ++ [checking]) (cmds st ++ ["cat /proc/version"]), Ok tt).
Proof.
  intros Hfam Hd H1 H2.
  unfold _validate_target_distribution, mbind, M_bind, getattr, lift, logger, run,
    raise, mret, M_ret. rewrite Hd. cbn [py_concat env log cmds].
  rewrite in_debian_family, bool_decide_eq_true_2 by done.
  rewrite H1. cbn [py_find env log cmds].
  destruct (PyStr.find (PyStr.lower o1) tag =? -1); [| done].
  rewrite H2. cbn [py_find py_concat env log cmds].
  rewrite <- app_assoc.
  by destruct (PyStr.find (PyStr.lower o2) tag =? -1).
Qed.

(** On a tag outside the Debian family. *)
Lemma validate_other_run (st : state) (tag : string) :
  ~ debian_family tag ->
  env st !! "distribution" = Some (VStr tag) ->
  _validate_target_distribution w (VStr tag) st =
    (State (env st)
       (log st ++ [(DEBUG, "Checking target distribution " +:+ tag);
                   (DEBUG, "Unknown target distro")])
       (cmds st), Ok tt).
Proof.
  intros Hfam Hd.
  unfold _validate_target_distribution, mbind, M_bind, getattr, lift, logger.
  rewrite Hd. cbn [py_concat env log cmds].
  rewrite in_debian_family, bool_decide_eq_false_2 by done.
  cbn [env log cmds]. by rewrite <- app_assoc.
Qed.

Lemma find_occurs_ci (tag o : string) :
  debian_family tag ->
  (PyStr.find (PyStr.lower o) tag =? -1) = true <-> ~ occurs_ci tag o.
Proof.
  intros Hfam. rewrite Z.eqb_eq, find_minus_one. unfold occurs_ci.
  by destruct Hfam as [-> | ->].
Qed.

End Validator.

(** C7: for the tags debian and ubuntu, when the remote reads return, the
    validator reads /proc/version and, if the tag does not occur in it
    (case ignored), reads /etc/issue too; it raises the mismatch error if
    and only if the tag occurs in neither output, and returns otherwise.
    For centos and scientificlinux it issues no remote command and
    returns. *)
Theorem validate_target_distribution_spec :
  (forall (w : world) (st : state) (tag o1 o2 : string),
     debian_family tag ->
     env st !! "distribution" = Some (VStr tag) ->
     w_run w "cat /proc/version" = Some o1 ->
     w_run w "cat /etc/issue" = Some o2 ->
     let r := _validate_target_distribution w (VStr tag) st in
     (occurs_ci tag o1 -> cmds r.1 = (cmds st ++ ["cat /proc/version"])%list) /\
     (~ occurs_ci tag o1 ->
      cmds r.1 = (cmds st ++ ["cat /proc/version"; "cat /etc/issue"])%list) /\
     (r.2 = Raise (mismatch tag) <-> ~ occurs_ci tag o1 /\ ~ occurs_ci tag o2) /\
     (r.2 = Ok tt <-> ~ (~ occurs_ci tag o1 /\ ~ occurs_ci tag o2))) /\
  (forall (w : world) (st : state) (tag : string),
     tag = "centos" \/ tag = "scientificlinux" ->
     env st !! "distribution" = Some (VStr tag) ->
     let r := _validate_target_distribution w (VStr tag) st in
     cmds r.1 = cmds st /\ r.2 = Ok tt).
Proof.
  split.
  - intros w st tag o1 o2 Hfam Hd H1 H2 r. subst r.
    rewrite (validate_debian_run w st tag o1 o2 Hfam Hd H1 H2). cbv zeta.
    pose proof (find_occurs_ci tag o1 Hfam) as E1.
    pose proof (find_occurs_ci tag o2 Hfam) as E2.
    destruct (PyStr.find (PyStr.lower o1) tag =? -1);
      [destruct (PyStr.find (PyStr.lower o2) tag =? -1) |]; cbn [fst snd cmds].
    + assert (~ occurs_ci tag o1) by by apply E1.
      assert (~ occurs_ci tag o2) by by apply E2.
      repeat split; intros; try done; try tauto; try (exfalso; tauto).
    + assert (~ occurs_ci tag o1) by by apply E1.
      assert (~ ~ occurs_ci tag o2) by (intros ?%E2; done).
      repeat split; intros; try done; try tauto; try (exfalso; tauto).
    + assert (~ ~ occurs_ci tag o1) by (intros ?%E1; done).
      repeat split; intros; try done; try tauto; try (exfalso; tauto).
  - intros w st tag Htag Hd r. subst r.
    rewrite validate_other_run; [done | | done].
    unfold debian_family. destruct Htag as [-> | ->]; intros [?|?]; done.
Qed.

Lemma validate_target_distribution_spec_witness :
  (_validate_target_distribution ubuntu_world (VStr "ubuntu") ubuntu_state).2 = Ok tt /\
  cmds (_validate_target_distribution ubuntu_world (VStr "ubuntu") ubuntu_state).1
    = ["cat /proc/version"; "cat /etc/issue"] /\
  cmds (_validate_target_distribution ubuntu_world (VStr "centos") centos_bare_state).1 = [].
Proof.
  pose proof (proj1 validate_target_distribution_spec ubuntu_world ubuntu_state "ubuntu"
                "Linux version 3.2.0 (gcc 4.6.3)" "Ubuntu 12.04 LTS"
                (or_intror eq_refl) eq_refl eq_refl eq_refl) as (_ & H2 & _ & H4).
  pose proof (proj2 validate_target_distribution_spec ubuntu_world centos_bare_state
                "centos" (or_introl eq_refl) eq_refl) as [H5 _].
  assert (occurs_ci "ubuntu" "Ubuntu 12.04 LTS") as Ho by (by exists "", " 12.04 lts").
  assert (~ occurs_ci "ubuntu" "Linux version 3.2.0 (gcc 4.6.3)") as Hn.
  { apply (find_occurs_ci "ubuntu" _ (or_intror eq_refl)). reflexivity. }
  split; [| split].
  - apply H4. tauto.
  - exact (H2 Hn).
  - exact H5.
Defined.

(** The mismatch: a machine that answers CentOS to a debian set-up. *)
Example validate_target_distribution_mismatch :
  _validate_target_distribution (World (fun _ => Some "CentOS release 6.2") None ∅)
    (VStr "debian")
    (State {[ "distribution" := VStr "debian" ]} [] [])
  = (State {[ "distribution" := VStr "debian" ]}
       [(DEBUG, "Checking target distribution debian")]
       ["cat /proc/version"; "cat /etc/issue"], Raise (mismatch "debian")).
Proof. vm_compute. reflexivity. Qed.

(** ** The dispatcher, piece by piece *)

Section Dispatcher.

Variable w : world.

(** Unfolds the functions of the module down to the primitives. *)
Ltac unfold_setup :=
  unfold setup_through_validation, setup_through_hosts, setup_profile, setup_from_shim,
    _setup_vagrant_environment, _setup_local_environment, _setup_ubuntu, _setup_debian,
    _setup_centos, _setup_scientificlinux, _setup_deb_general, _add_source_versions,
    _validate_target_distribution, _cloudman_compatibility, _setup_nixpkgs,
    _configure_sudo.

Lemma stable_validate (P : gmap string value -> Prop) (dist : value) :
  stable P (_validate_target_distribution w dist).
Proof. unfold_setup. solve_stable. Qed.

Lemma stable_through_hosts (k : string) (x : option value) :
  k ∉ ["user"; "hosts"; "port"; "host_string"; "key_filename"; "java_home"] ->
  stable (holds k x) (setup_through_hosts w).
Proof. intros H. split_not_elem H. unfold_setup. solve_stable. Qed.

Lemma stable_through_hosts_java_home (v : value) :
  stable (holds "java_home" (Some v)) (setup_through_hosts w).
Proof. unfold_setup. solve_stable. Qed.

Lemma stable_from_shim (k : string) (x : option value) :
  k ∉ ["install_dir"; "nixpkgs"; "safe_sudo"; "use_sudo"; "is_64bit"] ->
  stable (holds k x) (setup_from_shim w).
Proof. intros H. split_not_elem H. unfold_setup. solve_stable. Qed.

Lemma stable_through_validation (k : string) (x : option value) :
  k ∉ ["user"; "hosts"; "port"; "host_string"; "key_filename"; "java_home";
       "sources_file"; "apt_preferences_file"; "python_version_ext";
       "ruby_version_ext"; "std_sources"; "pip_cmd"] ->
  stable (holds k x) (setup_through_validation w).
Proof. intros H. split_not_elem H. unfold_setup. solve_stable. Qed.

(** The dispatcher is the set-up through the validation followed by the
    adjustors. *)
Lemma dispatcher_split (st : state) :
  _setup_distribution_environment w st =
    (setup_through_validation w ≫= fun _ => setup_from_shim w) st.
Proof.
  unfold _setup_distribution_environment, setup_through_validation, setup_through_hosts,
    setup_from_shim.
  unfold setup_profile. symmetry.
  repeat (rewrite ?bind_assoc; first [reflexivity | apply bind_ext; intros ? ?]).
Qed.

Lemma stable_run_eq {A} (P : gmap string value -> Prop) (m : M A)
    (st st1 : state) (r : result A) :
  stable P m -> m st = (st1, r) -> P (env st) -> P (env st1).
Proof. intros Hm Hrun HP. specialize (Hm st HP). by rewrite Hrun in Hm. Qed.

(** A property set up by a computation and kept by what follows. *)
Lemma stable_after {A B} (Q : gmap string value -> Prop) (m : M A) (f : A -> M B)
    (st : state) :
  Q (env (m st).1) -> (forall a, stable Q (f a)) -> Q (env ((m ≫= f) st).1).
Proof.
  intros HQ Hf. rewrite run_bind. destruct (m st) as [st' [a|e]]; [| done].
  by apply Hf.
Qed.

Lemma percent_line (pre s : string) :
  percent_free pre = true -> py_percent (pre +:+ "%s") [VStr s] = Ok (pre +:+ s).
Proof.
  intros Hpre. pose proof (py_format_one pre "" s Hpre eq_refl) as H.
  rewrite (str_app_nil_r s) in H. exact H.
Qed.

Lemma unexpected_line (tag : string) :
  py_percent "Unexpected distribution %s" [VStr tag]
  = Ok ("Unexpected distribution " +:+ tag).
Proof. exact (percent_line "Unexpected distribution " tag eq_refl). Qed.

Lemma distribution_line (tag : string) :
  py_percent "Distribution %s" [VStr tag] = Ok ("Distribution " +:+ tag).
Proof. exact (percent_line "Distribution " tag eq_refl). Qed.

Lemma setup_profile_run (p : profile) (st : state) :
  env st !! "distribution" = Some (VStr (tag_of p)) ->
  setup_profile st = run_profile p st.
Proof.
  intros Hd. unfold setup_profile. rewrite run_bind. unfold getattr. rewrite Hd.
  by destruct p.
Qed.

Lemma eq_str_false (a b : string) : a <> b -> py_eq_str (VStr a) b = false.
Proof. intros H. by apply String.eqb_neq. Qed.

Lemma setup_profile_unexpected (st : state) (tag : string) :
  env st !! "distribution" = Some (VStr tag) ->
  tag ∉ known_tags ->
  setup_profile st = (st, Raise (ValueError ("Unexpected distribution " +:+ tag))).
Proof.
  intros Hd Htag. unfold known_tags in Htag. split_not_elem Htag.
  unfold setup_profile. rewrite run_bind. unfold getattr. rewrite Hd.
  rewrite !eq_str_false by done.
  rewrite run_bind. unfold lift.
  by rewrite unexpected_line.
Qed.

Lemma deb_general_sets (st : state) :
  let e := env (_setup_deb_general st).1 in
  is_Some (e !! "java_home") /\
  e !! "python_version_ext" = Some (VStr "") /\
  e !! "ruby_version_ext" = Some (VStr "1.9.1").
Proof.
  unfold _setup_deb_general, mbind, M_bind, logger, setattr, has_key, mret, M_ret.
  cbn [env log cmds fst snd]. simpl_lookup.
  destruct (env st !! "java_home") as [v|] eqn:Hj.
  - rewrite bool_decide_eq_true_2 by done. cbn [negb fst snd env].
    simpl_lookup. rewrite Hj. eauto.
  - rewrite bool_decide_eq_false_2 by (by intros [? ?]). cbn [negb fst snd env].
    simpl_lookup. eauto.
Qed.

Lemma deb_profile_keeps (msg : string) (rest : list string -> M unit)
    (st : state) (k : string) (v : value) :
  (forall a, stable (holds k (Some v)) (rest a)) ->
  (forall st', env (_setup_deb_general st').1 !! k = Some v) ->
  env ((logger INFO msg ≫= fun _ => _setup_deb_general ≫= rest) st).1 !! k = Some v.
Proof.
  intros Hrest Hdeb. rewrite run_bind. unfold logger at 1. cbv beta iota.
  apply (stable_after (holds k (Some v))); [| done]. apply Hdeb.
Qed.

Lemma deb_profile_sets (p : profile) (st : state) :
  p = Ubuntu \/ p = Debian ->
  is_Some (env (run_profile p st).1 !! "java_home") /\
  env (run_profile p st).1 !! "python_version_ext" = Some (VStr "") /\
  env (run_profile p st).1 !! "ruby_version_ext" = Some (VStr "1.9.1").
Proof.
  intros Hp.
  assert (forall k v, k <> "std_sources" ->
            (forall st', env (_setup_deb_general st').1 !! k = Some v) ->
            env (run_profile p st).1 !! k = Some v) as Hkeep.
  { intros k v Hk Hdeb.
    destruct Hp as [-> | ->]; apply deb_profile_keeps; try done;
      intros a; solve_stable; apply stable_add_source_versions. }
  split; [| split].
  - destruct (env st !! "java_home") as [v|] eqn:Hj.
    + exists v. by apply (profile_keeps_set_java_home p v st).
    + exists (VStr "/usr/lib/jvm/java-6-openjdk").
      destruct Hp as [-> | ->]; unfold run_profile, _setup_ubuntu, _setup_debian;
        rewrite run_bind; unfold logger at 1; cbv beta iota;
        apply (stable_after (holds "java_home" (Some (VStr "/usr/lib/jvm/java-6-openjdk"))));
        try (intros a; solve_stable; apply stable_add_source_versions).
      all: unfold holds, _setup_deb_general, mbind, M_bind, logger, setattr, has_key,
             mret, M_ret; cbn [env log cmds fst snd]; simpl_lookup; rewrite Hj;
           rewrite bool_decide_eq_false_2 by (by intros [? ?]);
           cbn [negb fst snd env]; by simpl_lookup.
  - apply Hkeep; [done |]. intros st'. apply deb_general_sets.
  - apply Hkeep; [done |]. intros st'. apply deb_general_sets.
Qed.

(** What each profile leaves in [java_home] and the interpreter suffixes,
    whether it returns or raises. *)
Lemma profile_sets (p : profile) (st : state) :
  is_Some (env (run_profile p st).1 !! "java_home") /\
  suffixes_after p (env st) (env (run_profile p st).1).
Proof.
  destruct p.
  - pose proof (deb_profile_sets Ubuntu st (or_introl eq_refl)) as (? & ? & ?). done.
  - unfold run_profile, _setup_centos, suffixes_after, mbind, M_bind, logger, setattr,
      has_key, mret, M_ret. cbn [env log cmds fst snd]. simpl_lookup.
    destruct (env st !! "java_home") as [v|] eqn:Hj.
    + rewrite bool_decide_eq_true_2 by done. cbn [negb fst snd env].
      simpl_lookup. rewrite Hj. eauto.
    + rewrite bool_decide_eq_false_2 by (by intros [? ?]). cbn [negb fst snd env].
      simpl_lookup. eauto.
  - unfold run_profile, _setup_scientificlinux, suffixes_after, mbind, M_bind, logger,
      setattr, has_key, mret, M_ret. cbn [env log cmds fst snd]. simpl_lookup.
    destruct (env st !! "java_home") as [v|] eqn:Hj.
    + rewrite bool_decide_eq_true_2 by done. cbn [negb fst snd env].
      simpl_lookup. rewrite Hj. eauto.
    + rewrite bool_decide_eq_false_2 by (by intros [? ?]). cbn [negb fst snd env].
      simpl_lookup. eauto.
  - pose proof (deb_profile_sets Debian st (or_intror eq_refl)) as (? & ? & ?). done.
Qed.

(** A field the profile leaves in the context is still there at the end of
    the set-up, unless an adjustor assigns it. *)
Lemma dispatcher_keeps_profile_field (p : profile) (st st1 : state)
    (k : string) (x : option value) :
  k ∉ ["install_dir"; "nixpkgs"; "safe_sudo"; "use_sudo"; "is_64bit"] ->
  env st !! "distribution" = Some (VStr (tag_of p)) ->
  setup_through_hosts w st = (st1, Ok tt) ->
  env (run_profile p st1).1 !! k = x ->
  env (_setup_distribution_environment w st).1 !! k = x.
Proof.
  intros Hk Hd Hhosts Hp. rewrite dispatcher_split.
  apply (stable_after (holds k x)); [| intros; by apply stable_from_shim].
  unfold setup_through_validation. rewrite (run_bind_ok _ _ _ _ _ Hhosts).
  apply (stable_after (holds k x));
    [| intros; apply stable_bind; [apply stable_getattr | intros; apply stable_validate]].
  rewrite (setup_profile_run p); [done |].
  apply (stable_run_eq (holds "distribution" (Some (VStr (tag_of p)))) _ _ _ _
           (stable_through_hosts "distribution" _ ltac:(solve_not_elem)) Hhosts Hd).
Qed.

(** On a tag it does not know, the dispatcher stops right after host
    resolution. *)
Lemma dispatcher_unexpected (st : state) (tag : string) :
  env st !! "distribution" = Some (VStr tag) ->
  tag ∉ known_tags ->
  _setup_distribution_environment w st =
    ((setup_through_hosts w st).1,
     match (setup_through_hosts w st).2 with
     | Ok _ => Raise (ValueError ("Unexpected distribution " +:+ tag))
     | Raise e => Raise e
     end).
Proof.
  intros Hd Htag. rewrite dispatcher_split. unfold setup_through_validation.
  rewrite run_bind, (run_bind (setup_through_hosts w)).
  destruct (setup_through_hosts w st) as [st1 [[]|e]] eqn:Hhosts; [| done].
  cbn [fst snd]. rewrite run_bind.
  rewrite setup_profile_unexpected with (tag := tag); [done | | done].
  apply (stable_run_eq (holds "distribution" (Some (VStr tag))) _ _ _ _
           (stable_through_hosts "distribution" _ ltac:(solve_not_elem)) Hhosts Hd).
Qed.

Lemma stable_vagrant_java_home (x : option value) :
  stable (holds "java_home" x) (_setup_vagrant_environment w).
Proof. unfold_setup. solve_stable. Qed.

(** Only the local host resolver can fill [java_home] in. *)
Lemma through_hosts_java_home (st : state) :
  env st !! "hosts" <> Some (VList ["localhost"]) ->
  env (setup_through_hosts w st).1 !! "java_home" = env st !! "java_home".
Proof.
  intros Hh. unfold setup_through_hosts.
  rewrite run_bind. unfold getattr at 1.
  destruct (env st !! "distribution") as [d|]; [| done].
  rewrite run_bind. unfold lift at 1.
  destruct (py_percent "Distribution %s" [d]) as [msg|]; [| done].
  rewrite run_bind. unfold logger at 1. cbv beta iota.
  rewrite run_bind. unfold getattr at 1. cbn [env].
  destruct (env st !! "hosts") as [h|]; [| done].
  case_bool_decide as Hv.
  { by apply (stable_vagrant_java_home (env st !! "java_home")
                (State (env st) (log st ++ [(INFO, msg)]) (cmds st))). }
  case_bool_decide as Hl; [| done]. by subst h.
Qed.

End Dispatcher.

(** C4, as stated, fails: the CentOS profile leaves an empty
    [ruby_version_ext] at the end of a set-up that succeeds. *)
Lemma centos_run_empty_ruby_suffix :
  (_setup_distribution_environment centos_world centos_state).2 = Ok tt /\
  env (_setup_distribution_environment centos_world centos_state).1
    !! "ruby_version_ext" = Some (VStr "").
Proof. split; vm_compute; reflexivity. Qed.

(** C4, amended: for each of the four valid tags, once host resolution has
    completed, the dispatcher leaves [java_home] set, with its value from
    before the call if it had one.  After ubuntu and debian
    [python_version_ext] is the empty string and [ruby_version_ext] is
    "1.9.1"; after centos [python_version_ext] is "2.6" and
    [ruby_version_ext] is the empty string; scientificlinux leaves both
    suffixes as they were. *)
Theorem dispatcher_profile_fields (w : world) (st st1 : state) (p : profile) :
  env st !! "distribution" = Some (VStr (tag_of p)) ->
  setup_through_hosts w st = (st1, Ok tt) ->
  is_Some (env (_setup_distribution_environment w st).1 !! "java_home") /\
  (forall v, env st !! "java_home" = Some v ->
             env (_setup_distribution_environment w st).1 !! "java_home" = Some v) /\
  suffixes_after p (env st) (env (_setup_distribution_environment w st).1).
Proof.
  intros Hd Hhosts.
  pose proof (profile_sets p st1) as [[j Hj] Hsuf].
  assert (forall k x, k ∈ ["java_home"; "python_version_ext"; "ruby_version_ext"] ->
            env (run_profile p st1).1 !! k = x ->
            env (_setup_distribution_environment w st).1 !! k = x) as Hkeep.
  { intros k x Hk. apply (dispatcher_keeps_profile_field w p st st1); [| done | done].
    rewrite !elem_of_cons, elem_of_nil in Hk.
    destruct Hk as [-> | [-> | [-> | []]]]; solve_not_elem. }
  assert (forall k x, k ∈ ["python_version_ext"; "ruby_version_ext"] ->
            env st !! k = x -> env st1 !! k = x) as Hframe.
  { intros k x Hk. apply (stable_run_eq (holds k x) _ _ _ _ (stable_through_hosts w k x
      ltac:(rewrite !elem_of_cons, elem_of_nil in Hk;
            destruct Hk as [-> | [-> | []]]; solve_not_elem)) Hhosts). }
  split; [| split].
  - exists j. apply Hkeep; [set_solver | done].
  - intros v Hv. apply Hkeep; [set_solver |].
    apply (profile_keeps_set_java_home p v st1).
    by apply (stable_run_eq _ _ _ _ _ (stable_through_hosts_java_home w v) Hhosts).
  - destruct p; unfold suffixes_after in *; destruct Hsuf as [Hpy Hrb];
      split; apply Hkeep; try set_solver; try done.
    + rewrite Hpy. apply Hframe; [set_solver | done].
    + rewrite Hrb. apply Hframe; [set_solver | done].
Qed.

Lemma dispatcher_profile_fields_witness :
  env centos_state !! "distribution" = Some (VStr (tag_of Centos)) /\
  env (_setup_distribution_environment centos_world centos_state).1
    !! "python_version_ext" = Some (VStr "2.6").
Proof.
  split; [reflexivity |].
  exact (proj1 (proj2 (proj2
    (dispatcher_profile_fields centos_world centos_state
       (State (env centos_state) [(INFO, "Distribution centos")] []) Centos
       eq_refl eq_refl)))).
Defined.

(** ** An unknown distribution tag *)

(** C2, as stated, fails: with the hosts list ["localhost"] the local host
    resolver runs before the tag is looked at and fills [java_home] in,
    so the field is set although the tag is then rejected. *)
Lemma fedora_local_fills_java_home :
  env fedora_state !! "java_home" = None /\
  (_setup_distribution_environment fedora_world fedora_state).2
    = Raise (ValueError "Unexpected distribution fedora") /\
  env (_setup_distribution_environment fedora_world fedora_state).1 !! "java_home"
    = Some (VStr "/usr/lib/jvm/java-6-openjdk").
Proof. repeat split; vm_compute; reflexivity. Qed.

(** C2, amended: if the distribution tag is a string outside the four
    known tags and host resolution completes, the dispatcher raises the
    error "Unexpected distribution <tag>" and the context is the one host
    resolution left.  No profile runs: the apt file paths, the interpreter
    suffixes, [pip_cmd] and [std_sources] are as before the call, and so
    is [java_home] when it was set or when the hosts list is not
    ["localhost"]. *)
Theorem unexpected_distribution (w : world) (st : state) (tag : string) :
  env st !! "distribution" = Some (VStr tag) ->
  tag ∉ known_tags ->
  (forall st1, setup_through_hosts w st = (st1, Ok tt) ->
     _setup_distribution_environment w st =
       (st1, Raise (ValueError ("Unexpected distribution " +:+ tag)))) /\
  (forall k, k ∈ profile_only_fields ->
     env (_setup_distribution_environment w st).1 !! k = env st !! k) /\
  (forall v, env st !! "java_home" = Some v ->
     env (_setup_distribution_environment w st).1 !! "java_home" = Some v) /\
  (env st !! "hosts" <> Some (VList ["localhost"]) ->
     env (_setup_distribution_environment w st).1 !! "java_home" = env st !! "java_home").
Proof.
  intros Hd Htag. rewrite (dispatcher_unexpected w st tag Hd Htag). cbn [fst snd].
  split; [| split; [| split]].
  - intros st1 Hhosts. by rewrite Hhosts.
  - intros k Hk. apply (stable_through_hosts w k (env st !! k)); [| done].
    unfold profile_only_fields in Hk. rewrite !elem_of_cons, elem_of_nil in Hk.
    destruct Hk as [-> | [-> | [-> | [-> | [-> | [-> | []]]]]]]; solve_not_elem.
  - intros v Hv. by apply (stable_through_hosts_java_home w v st).
  - apply through_hosts_java_home.
Qed.

Lemma unexpected_distribution_witness :
  env (State (<["distribution":=VStr "fedora"]> {[ "hosts" := VList ["host1"] ]}) [] [])
    !! "distribution" = Some (VStr "fedora") /\
  ("fedora" ∉ known_tags) /\
  _setup_distribution_environment fedora_world
    (State (<["distribution":=VStr "fedora"]> {[ "hosts" := VList ["host1"] ]}) [] [])
  = (State (<["distribution":=VStr "fedora"]> {[ "hosts" := VList ["host1"] ]})
       [(INFO, "Distribution fedora")] [],
     Raise (ValueError "Unexpected distribution fedora")).
Proof.
  assert ("fedora" ∉ known_tags) as Htag by (unfold known_tags; solve_not_elem).
  split; [reflexivity |]. split; [exact Htag |].
  exact (proj1 (unexpected_distribution fedora_world
                  (State (<["distribution":=VStr "fedora"]>
                            {[ "hosts" := VList ["host1"] ]}) [] [])
                  "fedora" eq_refl Htag) _ eq_refl).
Defined.

(** ** The compatibility shim *)

Section Shim.

Variable w : world.

(** The profile dispatch returns only if one of the four profiles ran. *)
Lemma setup_profile_ok (st st' : state) :
  setup_profile st = (st', Ok tt) ->
  exists p, env st !! "distribution" = Some (VStr (tag_of p)) /\
            run_profile p st = (st', Ok tt).
Proof.
  unfold setup_profile. rewrite run_bind. unfold getattr.
  destruct (env st !! "distribution") as [d|]; [| done].
  assert (forall r : result string,
            (lift r ≫= fun err => raise (ValueError err) : M unit) st <> (st', Ok tt)) as Hno.
  { intros r. rewrite run_bind. unfold lift, raise. by destruct r. }
  destruct d as [s| | |]; cbn [py_eq_str]; try (intros H; by apply Hno in H).
  destruct (String.eqb_spec s "ubuntu") as [-> | _]; [by exists Ubuntu |].
  destruct (String.eqb_spec s "centos") as [-> | _]; [by exists Centos |].
  destruct (String.eqb_spec s "scientificlinux") as [-> | _];
    [by exists ScientificLinux |].
  destruct (String.eqb_spec s "debian") as [-> | _]; [by exists Debian |].
  intros H. by apply Hno in H.
Qed.

(** When the set-up gets through the validation, a profile has run. *)
Lemma through_validation_ok (st st1 : state) :
  setup_through_validation w st = (st1, Ok tt) ->
  is_Some (env st1 !! "java_home").
Proof.
  unfold setup_through_validation. rewrite run_bind.
  destruct (setup_through_hosts w st) as [st0 [[]|e]]; [| done].
  rewrite run_bind.
  destruct (setup_profile st0) as [st2 [[]|e]] eqn:Hp; [| done].
  intros Hv.
  apply (stable_run_eq (fun e => is_Some (e !! "java_home")) _ st2 st1 (Ok tt)
           (stable_bind _ _ _ (stable_getattr _ _)
              (fun d => stable_validate w _ d)) Hv).
  destruct (setup_profile_ok _ _ Hp) as (p & _ & Hrun).
  pose proof (profile_sets p st0) as [Hj _]. by rewrite Hrun in Hj.
Qed.

Lemma from_shim_missing (st : state) :
  env st !! "system_install" = None ->
  setup_from_shim w st = (st, Raise (AttributeError "system_install")).
Proof.
  intros H. unfold setup_from_shim, _cloudman_compatibility.
  rewrite !run_bind. unfold getattr. by rewrite H.
Qed.

Lemma from_shim_copies (st : state) (v : value) :
  env st !! "system_install" = Some v ->
  env (setup_from_shim w st).1 !! "install_dir" = Some v.
Proof.
  intros H. unfold setup_from_shim.
  apply (stable_after (holds "install_dir" (Some v))).
  - unfold _cloudman_compatibility. rewrite run_bind. unfold getattr, setattr.
    rewrite H. cbn [fst env]. apply lookup_insert_eq.
  - intros _. unfold _setup_nixpkgs, _configure_sudo. solve_stable.
Qed.

End Shim.

(** C10, as stated, fails: a run with a recognized tag need not reach the
    shim.  Here the tag is debian, [system_install] is unset, and the
    machine answers CentOS to the validator: the run aborts with the
    mismatch error of the validation, not with an attribute error. *)
Lemma mismatch_before_shim :
  env debian_squeeze_state !! "distribution" = Some (VStr "debian") /\
  env debian_squeeze_state !! "system_install" = None /\
  (_setup_distribution_environment wrong_machine_world debian_squeeze_state).2
    = Raise (mismatch "debian").
Proof. repeat split; vm_compute; reflexivity. Qed.

(** C10, amended: in every run of the dispatcher that gets through host
    resolution, the profile and the validation (so that the tag is a
    recognized one), the shim reads [system_install] and copies it to
    [install_dir].  If the caller did not set [system_install], the run
    aborts there with an attribute error, in the context that the profile
    left ([java_home] is set in it), so that [system_install] is a required
    input. *)
Theorem system_install_required (w : world) (st st1 : state) :
  setup_through_validation w st = (st1, Ok tt) ->
  is_Some (env st1 !! "java_home") /\
  env st1 !! "system_install" = env st !! "system_install" /\
  (env st !! "system_install" = None ->
   _setup_distribution_environment w st = (st1, Raise (AttributeError "system_install"))) /\
  (forall v, env st !! "system_install" = Some v ->
   env (_setup_distribution_environment w st).1 !! "install_dir" = Some v).
Proof.
  intros Hrun.
  assert (env st1 !! "system_install" = env st !! "system_install") as Hsys.
  { apply (stable_run_eq (holds "system_install" (env st !! "system_install")) _ _ _ _
             (stable_through_validation w "system_install" _ ltac:(solve_not_elem)) Hrun).
    done. }
  assert (_setup_distribution_environment w st = setup_from_shim w st1) as Hsplit.
  { rewrite dispatcher_split.
    exact (run_bind_ok _ (fun _ => setup_from_shim w) st st1 tt Hrun). }
  split; [by apply (through_validation_ok w st) |]. split; [done |]. split.
  - intros Hnone. rewrite Hsplit. apply from_shim_missing. by rewrite Hsys.
  - intros v Hv. rewrite Hsplit. apply from_shim_copies. by rewrite Hsys.
Qed.

Lemma system_install_required_witness :
  setup_through_validation centos_world centos_bare_state
    = (centos_validated_state, Ok tt) /\
  _setup_distribution_environment centos_world centos_bare_state
    = (centos_validated_state, Raise (AttributeError "system_install")).
Proof.
  assert (setup_through_validation centos_world centos_bare_state
          = (centos_validated_state, Ok tt)) as H by (vm_compute; reflexivity).
  split; [exact H |].
  exact (proj1 (proj2 (proj2
    (system_install_required centos_world centos_bare_state centos_validated_state H)))
    eq_refl).
Defined.

(** With [system_install] set, the same run copies it and succeeds. *)
Example centos_run_install_dir :
  (_setup_distribution_environment centos_world centos_state).2 = Ok tt /\
  env (_setup_distribution_environment centos_world centos_state).1 !! "install_dir"
    = Some (VStr "/usr").
Proof. split; vm_compute; reflexivity. Qed.

(** * Further properties of the module *)

(** ** More on the substitution helper *)

Section AddSourceVersionsMore.

Lemma patch_sources_length (name : value) (sources out : list string) :
  patch_sources name sources = Ok out -> length out = length sources.
Proof.
  revert out. induction sources as [|s l IH]; intros out; simpl.
  - by intros [= <-].
  - destruct (patch_source name s) as [s'|]; [| done]. simpl.
    destruct (patch_sources name l) as [final|]; [| done]. simpl.
    intros [= <-]. simpl. by rewrite (IH final).
Qed.

Lemma patch_sources_app_raise (name : value) (l1 l2 out1 : list string)
    (t : string) (e : exn) :
  patch_sources name l1 = Ok out1 ->
  patch_source name t = Raise e ->
  patch_sources name (l1 ++ t :: l2) = Raise e.
Proof.
  revert out1. induction l1 as [|s l IH]; intros out1; simpl.
  - intros _ Ht. by rewrite Ht.
  - destruct (patch_source name s) as [s'|]; [| done]. simpl.
    destruct (patch_sources name l) as [final|] eqn:Hl; [| done].
    intros _ Ht. by rewrite (IH final eq_refl Ht).
Qed.

Lemma patch_source_leading (name : value) (suf : string) :
  patch_source name ("%s" +:+ suf) = Ok ("%s" +:+ suf).
Proof.
  unfold patch_source.
  assert (PyStr.find ("%s" +:+ suf) "%s" = 0) as ->; [| done].
  unfold PyStr.find. rewrite find_nat_unfold.
  by rewrite (prefix_app "%s" suf).
Qed.

Lemma format_go_no_args (pre rest : string) :
  percent_free pre = true ->
  format_go (pre +:+ "%s" +:+ rest) []
  = Raise (TypeError "not enough arguments for format string").
Proof.
  intros Hpre. by rewrite format_go_percent_free by done.
Qed.

Lemma patch_source_two_placeholders (v pre mid suf : string) :
  pre <> "" -> percent_free pre = true -> percent_free mid = true ->
  patch_source (VStr v) (pre +:+ "%s" +:+ mid +:+ "%s" +:+ suf)
  = Raise (TypeError "not enough arguments for format string").
Proof.
  intros Hne Hpre Hmid. unfold patch_source.
  assert (0 < PyStr.find (pre +:+ "%s" +:+ mid +:+ "%s" +:+ suf) "%s") as Hpos.
  { apply find_pos. split; [by exists pre, (mid +:+ "%s" +:+ suf) |].
    destruct pre as [|c pre]; [done |]. simpl in Hpre.
    change (String c pre +:+ "%s" +:+ mid +:+ "%s" +:+ suf)
      with (String c (pre +:+ "%s" +:+ mid +:+ "%s" +:+ suf)).
    cbn [String.prefix].
    destruct (ascii_dec "%" c) as [<-|]; [| done].
    by rewrite Ascii.eqb_refl in Hpre. }
  apply Z.ltb_lt in Hpos. rewrite Hpos.
  unfold py_percent, py_format. cbn [mapM py_str mbind option_bind mret option_ret].
  rewrite format_go_percent_free by done.
  change ("%s" +:+ mid +:+ "%s" +:+ suf) with (String "%" (String "s" (mid +:+ "%s" +:+ suf))).
  cbn [format_go Ascii.eqb Bool.eqb]. 
  by rewrite format_go_no_args by done.
Qed.

End AddSourceVersionsMore.

(** X1: whenever the helper returns, for any version string and any
    templates, the list it returns has as many entries as the list it was
    given, and the fields of the context and the remote commands issued
    are as before. *)
Theorem add_source_versions_length
    (v : string) (sources out : list string) (st st' : state) :
  _add_source_versions (VStr v) sources st = (st', Ok out) ->
  length out = length sources /\ env st' = env st /\ cmds st' = cmds st.
Proof.
  rewrite add_source_versions_run. intros [= <- Hout].
  split; [by apply (patch_sources_length (VStr v)) | done].
Qed.

Lemma add_source_versions_length_witness :
  _add_source_versions (VStr "precise") ["deb %s universe"; "deb foo"] empty_state
    = (State ∅ [(DEBUG, "Source=precise")] [], Ok ["deb precise universe"; "deb foo"]) /\
  length ["deb precise universe"; "deb foo"] = length ["deb %s universe"; "deb foo"].
Proof.
  assert (_add_source_versions (VStr "precise") ["deb %s universe"; "deb foo"] empty_state
          = (State ∅ [(DEBUG, "Source=precise")] [],
             Ok ["deb precise universe"; "deb foo"])) as H by reflexivity.
  split; [exact H |].
  exact (proj1 (add_source_versions_length _ _ _ _ _ H)).
Defined.

(** X2: a template that begins with the placeholder is not substituted:
    the guard of the loop asks for a position greater than zero.  A list of
    such templates is returned as it is, for any version string. *)
Theorem add_source_versions_leading (v : string) (sources : list string) (st : state) :
  Forall (fun s => exists suf, s = "%s" +:+ suf) sources ->
  (_add_source_versions (VStr v) sources st).2 = Ok sources.
Proof.
  intros H. rewrite add_source_versions_run. cbn [snd].
  induction H as [|s l [suf ->] _ IH]; [done |]. cbn [patch_sources].
  by rewrite patch_source_leading, IH.
Qed.

Lemma add_source_versions_leading_witness :
  Forall (fun s => exists suf, s = "%s" +:+ suf) ["%s main"; "%s-updates main"] /\
  (_add_source_versions (VStr "precise") ["%s main"; "%s-updates main"] empty_state).2
    = Ok ["%s main"; "%s-updates main"].
Proof.
  assert (Forall (fun s => exists suf, s = "%s" +:+ suf) ["%s main"; "%s-updates main"])
    as H.
  { constructor; [by exists " main" |]. constructor; [by exists "-updates main" |].
    constructor. }
  split; [exact H |].
  exact (add_source_versions_leading "precise" _ empty_state H).
Defined.

(** X3: a template with a second placeholder makes the helper raise a
    type error, wherever it stands in the list after templates that are
    substituted normally; no list is returned. *)
Theorem add_source_versions_second_placeholder
    (v pre mid suf : string) (l1 l2 : list string) (st : state) :
  Forall simple_template l1 ->
  pre <> "" -> percent_free pre = true -> percent_free mid = true ->
  (_add_source_versions (VStr v)
     (l1 ++ (pre +:+ "%s" +:+ mid +:+ "%s" +:+ suf) :: l2) st).2
  = Raise (TypeError "not enough arguments for format string").
Proof.
  intros Hl1 Hne Hpre Hmid. rewrite add_source_versions_run. cbn [snd].
  destruct (patch_sources_simple v l1 Hl1) as (out1 & Hout1 & _).
  apply (patch_sources_app_raise _ _ _ out1); [done |].
  by apply patch_source_two_placeholders.
Qed.

Lemma add_source_versions_second_placeholder_witness :
  Forall simple_template ["deb foo"] /\
  (_add_source_versions (VStr "precise") ["deb foo"; "deb %s %s main"; "deb bar"]
     empty_state).2
  = Raise (TypeError "not enough arguments for format string").
Proof.
  assert (Forall simple_template ["deb foo"]) as H.
  { constructor; [| constructor]. left. by apply percent_free_no_placeholder. }
  split; [exact H |].
  exact (add_source_versions_second_placeholder "precise" "deb " " " " main"
           ["deb foo"] ["deb bar"] empty_state H ltac:(discriminate) eq_refl eq_refl).
Defined.

(** ** More on the distribution profiles *)

Section ProfilesMore.

Lemma deb_general_run (st : state) :
  _setup_deb_general st =
    (State (deb_general_env (env st)) (log st ++ [(DEBUG, "Debian-shared setup")]) (cmds st),
     Ok ["deb http://nebc.nox.ac.uk/bio-linux/ unstable bio-linux";
         "deb http://download.virtualbox.org/virtualbox/debian %s contrib"]).
Proof.
  unfold _setup_deb_general, deb_general_env, mbind, M_bind, logger, setattr, has_key,
    mret, M_ret. cbn [env log cmds]. simpl_lookup.
  destruct (env st !! "java_home") as [j|].
  - by rewrite bool_decide_eq_true_2 by done.
  - by rewrite bool_decide_eq_false_2 by (by intros [? ?]).
Qed.

Lemma deb_general_env_other (e : gmap string value) (k : string) :
  k ∉ ["sources_file"; "apt_preferences_file"; "python_version_ext"; "ruby_version_ext";
       "java_home"] ->
  deb_general_env e !! k = e !! k.
Proof.
  intros H. split_not_elem H. unfold deb_general_env.
  destruct (e !! "java_home"); by simpl_lookup.
Qed.

Lemma ubuntu_patch (v : string) :
  patch_sources (VStr v)
    ["deb http://au.archive.ubuntu.com/ubuntu/ %s universe";
     "deb http://au.archive.ubuntu.com/ubuntu/ %s multiverse";
     "deb http://au.archive.ubuntu.com/ubuntu/ %s-updates universe";
     "deb http://au.archive.ubuntu.com/ubuntu/ %s-updates multiverse";
     "deb http://archive.canonical.com/ubuntu %s partner";
     "deb http://downloads-distro.mongodb.org/repo/ubuntu-upstart dist 10gen";
     "deb http://cran.ms.unimelb.edu.au/bin/linux/ubuntu %s/";
     "deb http://archive.cloudera.com/debian maverick-cdh3 contrib";
     "deb http://archive.canonical.com/ubuntu %s partner";
     "deb http://ppa.launchpad.net/freenx-team/ppa/ubuntu %s main";
     "deb http://nebc.nox.ac.uk/bio-linux/ unstable bio-linux";
     "deb http://download.virtualbox.org/virtualbox/debian %s contrib"]
  = Ok (ubuntu_sources v).
Proof.
  vm_compute. reflexivity.
Qed.

Lemma debian_patch (v : string) :
  patch_sources (VStr v)
    ["deb http://downloads-distro.mongodb.org/repo/debian-sysvinit dist 10gen";
     "deb http://cran.stat.ucla.edu/bin/linux/debian %s-cran/";
     "deb http://archive.cloudera.com/debian lenny-cdh3 contrib";
     "deb http://nebc.nox.ac.uk/bio-linux/ unstable bio-linux";
     "deb http://download.virtualbox.org/virtualbox/debian %s contrib"]
  = Ok (debian_sources v).
Proof. vm_compute. reflexivity. Qed.

(** The two Debian-family profiles, given the release name. *)
Lemma ubuntu_run (st : state) (v : string) :
  env st !! "dist_name" = Some (VStr v) ->
  _setup_ubuntu st =
    (State (<["std_sources":=VList (ubuntu_sources v)]> (deb_general_env (env st)))
       (log st ++ [(INFO, "Ubuntu setup"); (DEBUG, "Debian-shared setup");
                   (DEBUG, "Source=" +:+ v)])
       (cmds st), Ok tt).
Proof.
  intros Hv. unfold _setup_ubuntu. rewrite run_bind. unfold logger at 1.
  rewrite run_bind, deb_general_run. cbn [env log cmds app].
  rewrite run_bind. unfold getattr. cbn [env].
  rewrite deb_general_env_other by solve_not_elem. rewrite Hv.
  rewrite run_bind, add_source_versions_run, ubuntu_patch. unfold setattr.
  cbn [env log cmds]. rewrite <- !app_assoc. reflexivity.
Qed.

Lemma debian_run (st : state) (v : string) :
  env st !! "dist_name" = Some (VStr v) ->
  _setup_debian st =
    (State (<["std_sources":=VList (debian_sources v)]> (deb_general_env (env st)))
       (log st ++ [(INFO, "Debian setup"); (DEBUG, "Debian-shared setup");
                   (DEBUG, "Source=" +:+ v)])
       (cmds st), Ok tt).
Proof.
  intros Hv. unfold _setup_debian. rewrite run_bind. unfold logger at 1.
  rewrite run_bind, deb_general_run. cbn [env log cmds app].
  rewrite run_bind. unfold getattr. cbn [env].
  rewrite deb_general_env_other by solve_not_elem. rewrite Hv.
  rewrite run_bind, add_source_versions_run, debian_patch. unfold setattr.
  cbn [env log cmds]. rewrite <- !app_assoc. reflexivity.
Qed.

(** Without the release name, the set-up stops after the shared part. *)
Lemma deb_profile_no_dist_name (p : profile) (st : state) :
  p = Ubuntu \/ p = Debian ->
  env st !! "dist_name" = None ->
  exists l, run_profile p st =
    (State (deb_general_env (env st)) l (cmds st), Raise (AttributeError "dist_name")).
Proof.
  intros Hp Hv.
  destruct Hp as [-> | ->]; unfold run_profile, _setup_ubuntu, _setup_debian;
    rewrite run_bind; unfold logger at 1;
    rewrite run_bind, deb_general_run; cbn [env log cmds app];
    rewrite run_bind; unfold getattr; cbn [env];
    rewrite deb_general_env_other by solve_not_elem; rewrite Hv; by eexists.
Qed.

End ProfilesMore.

(** X4: with the release name [dist_name] set to a string [v], the Ubuntu
    and the Debian profile return, and [std_sources] holds the package
    sources of the profile followed by the two shared ones, in the order
    of the source, with [v] in the place of each placeholder: twelve lines
    for Ubuntu, five for Debian. *)
Theorem debian_family_std_sources (st : state) (v : string) :
  env st !! "dist_name" = Some (VStr v) ->
  (_setup_ubuntu st).2 = Ok tt /\
  env (_setup_ubuntu st).1 !! "std_sources" = Some (VList (ubuntu_sources v)) /\
  (_setup_debian st).2 = Ok tt /\
  env (_setup_debian st).1 !! "std_sources" = Some (VList (debian_sources v)).
Proof.
  intros Hv. rewrite (ubuntu_run st v Hv), (debian_run st v Hv). cbn [fst snd env].
  by rewrite !lookup_insert_eq.
Qed.

Lemma debian_family_std_sources_witness :
  env (State {[ "dist_name" := VStr "squeeze" ]} [] []) !! "dist_name"
    = Some (VStr "squeeze") /\
  env (_setup_debian (State {[ "dist_name" := VStr "squeeze" ]} [] [])).1 !! "std_sources"
    = Some (VList
        ["deb http://downloads-distro.mongodb.org/repo/debian-sysvinit dist 10gen";
         "deb http://cran.stat.ucla.edu/bin/linux/debian squeeze-cran/";
         "deb http://archive.cloudera.com/debian lenny-cdh3 contrib";
         "deb http://nebc.nox.ac.uk/bio-linux/ unstable bio-linux";
         "deb http://download.virtualbox.org/virtualbox/debian squeeze contrib"]).
Proof.
  split; [reflexivity |].
  exact (proj2 (proj2 (proj2
    (debian_family_std_sources (State {[ "dist_name" := VStr "squeeze" ]} [] [])
       "squeeze" eq_refl)))).
Defined.

(** X5: without [dist_name] in the context, the Ubuntu and the Debian
    profile raise an attribute error, after the shared part has run: the
    apt file paths, the interpreter suffixes and [java_home] are assigned
    by then, and [std_sources] is left as it was. *)
Theorem debian_family_needs_dist_name (p : profile) (st : state) :
  p = Ubuntu \/ p = Debian ->
  env st !! "dist_name" = None ->
  (run_profile p st).2 = Raise (AttributeError "dist_name") /\
  env (run_profile p st).1 = deb_general_env (env st) /\
  env (run_profile p st).1 !! "python_version_ext" = Some (VStr "") /\
  env (run_profile p st).1 !! "std_sources" = env st !! "std_sources".
Proof.
  intros Hp Hv. destruct (deb_profile_no_dist_name p st Hp Hv) as [l ->].
  cbn [fst snd env]. split; [done |]. split; [done |]. split.
  - unfold deb_general_env. destruct (env st !! "java_home"); by simpl_lookup.
  - apply deb_general_env_other. solve_not_elem.
Qed.

Lemma debian_family_needs_dist_name_witness :
  (Ubuntu = Ubuntu \/ Ubuntu = Debian) /\
  env empty_state !! "dist_name" = None /\
  (run_profile Ubuntu empty_state).2 = Raise (AttributeError "dist_name").
Proof.
  split; [by left |]. split; [reflexivity |].
  exact (proj1 (debian_family_needs_dist_name Ubuntu empty_state
                  (or_introl eq_refl) eq_refl)).
Defined.

(** X6: the CentOS and the ScientificLinux profile never raise.  CentOS
    assigns the two interpreter suffixes, ScientificLinux assigns [pip_cmd];
    both fill [java_home] with the RPM default when it is unset, and leave
    every other field of the context as it was. *)
Theorem rpm_profiles_return (st : state) :
  (_setup_centos st).2 = Ok tt /\
  (_setup_scientificlinux st).2 = Ok tt /\
  env (_setup_scientificlinux st).1 !! "pip_cmd" = Some (VStr "pip-python") /\
  env (_setup_centos st).1 !! "java_home"
    = Some (default (VStr "/etc/alternatives/java_sdk") (env st !! "java_home")) /\
  env (_setup_scientificlinux st).1 !! "java_home"
    = Some (default (VStr "/etc/alternatives/java_sdk") (env st !! "java_home")) /\
  (forall k, k ∉ ["python_version_ext"; "ruby_version_ext"; "java_home"] ->
     env (_setup_centos st).1 !! k = env st !! k) /\
  (forall k, k ∉ ["pip_cmd"; "java_home"] ->
     env (_setup_scientificlinux st).1 !! k = env st !! k).
Proof.
  unfold _setup_centos, _setup_scientificlinux, mbind, M_bind, logger, setattr, has_key,
    mret, M_ret. cbn [env log cmds fst snd]. simpl_lookup.
  destruct (env st !! "java_home") as [j|] eqn:Hj.
  - rewrite bool_decide_eq_true_2 by done. cbn [negb fst snd env default].
    repeat split; try (simpl_lookup; by rewrite ?Hj).
    all: intros k Hk; split_not_elem Hk; by simpl_lookup.
  - rewrite bool_decide_eq_false_2 by (by intros [? ?]). cbn [negb fst snd env default].
    repeat split; try (simpl_lookup; by rewrite ?Hj).
    all: intros k Hk; split_not_elem Hk; by simpl_lookup.
Qed.

(** ** The local host resolver *)

(** [if not env.has_key(k): env.k = d] as a whole. *)
Lemma fill_run (k : string) (d : value) (st : state) :
  (b ← has_key k; if negb (b : bool) then setattr k d else mret tt) st =
    (State (<[k:=default d (env st !! k)]> (env st)) (log st) (cmds st), Ok tt).
Proof.
  rewrite run_bind. unfold has_key, setattr, mret, M_ret.
  destruct st as [e l c]. cbn [env log cmds].
  destruct (e !! k) as [v|] eqn:Hv.
  - rewrite bool_decide_eq_true_2 by done. cbn [negb default].
    by rewrite (insert_id e k v Hv).
  - by rewrite bool_decide_eq_false_2 by (by intros [? ?]).
Qed.

Section Local.

Variable w : world.

(** The statement that fills [user] in from the process environment. *)
Lemma fill_user_run (st : state) :
  (b ← has_key "user";
   if negb (b : bool) then
     match w_environ w !! "USER" with
     | Some u => setattr "user" (VStr u)
     | None => raise (KeyError "USER")
     end
   else mret tt) st =
    match env st !! "user", w_environ w !! "USER" with
    | Some _, _ => (st, Ok tt)
    | None, Some u => (State (<["user":=VStr u]> (env st)) (log st) (cmds st), Ok tt)
    | None, None => (st, Raise (KeyError "USER"))
    end.
Proof.
  rewrite run_bind. unfold has_key, setattr, raise, mret, M_ret.
  destruct (env st !! "user") as [v|].
  - by rewrite bool_decide_eq_true_2 by done.
  - rewrite bool_decide_eq_false_2 by (by intros [? ?]). cbn [negb].
    by destruct (w_environ w !! "USER").
Qed.

Lemma local_environment_unfold (st : state) :
  _setup_local_environment w st =
    match env st !! "user", w_environ w !! "USER" with
    | Some _, _ =>
        (State (<["java_home":=local_java_home w (env st)]> (env st))
           (log st ++ [(INFO, "Get local environment")]) (cmds st), Ok tt)
    | None, Some u =>
        (State (<["java_home":=local_java_home w (env st)]> (<["user":=VStr u]> (env st)))
           (log st ++ [(INFO, "Get local environment")]) (cmds st), Ok tt)
    | None, None =>
        (State (env st) (log st ++ [(INFO, "Get local environment")]) (cmds st),
         Raise (KeyError "USER"))
    end.
Proof.
  unfold _setup_local_environment, local_java_home.
  rewrite run_bind. unfold logger at 1. cbv beta iota.
  rewrite run_bind, fill_user_run. cbn [env log cmds].
  destruct (env st !! "user") as [v|]; [| destruct (w_environ w !! "USER") as [u|]].
  - by rewrite fill_run.
  - rewrite fill_run. cbn [env log cmds]. by rewrite lookup_insert_ne by done.
  - done.
Qed.

End Local.

(** X7: the local host resolver needs a user: when [user] is unset and the
    process environment has no USER, it raises a key error for USER, and no
    field of the context has changed ([java_home] is not filled in either). *)
Theorem local_environment_needs_user (w : world) (st : state) :
  env st !! "user" = None ->
  w_environ w !! "USER" = None ->
  (_setup_local_environment w st).2 = Raise (KeyError "USER") /\
  env (_setup_local_environment w st).1 = env st.
Proof.
  intros Hu He. rewrite local_environment_unfold, Hu, He. done.
Qed.

Lemma local_environment_needs_user_witness :
  env empty_state !! "user" = None /\
  w_environ anonymous_world !! "USER" = None /\
  (_setup_local_environment anonymous_world empty_state).2 = Raise (KeyError "USER").
Proof.
  split; [reflexivity |]. split; [reflexivity |].
  exact (proj1 (local_environment_needs_user anonymous_world empty_state eq_refl eq_refl)).
Defined.

(** X8: when [user] is set, or USER is in the process environment, the
    local host resolver returns.  A [user] and a [java_home] that were set
    are kept; an unset [user] becomes USER, an unset [java_home] becomes
    JAVA_HOME or, without it, /usr/lib/jvm/java-6-openjdk.  No other field
    changes. *)
Theorem local_environment_fills (w : world) (st : state) :
  is_Some (env st !! "user") \/ is_Some (w_environ w !! "USER") ->
  (_setup_local_environment w st).2 = Ok tt /\
  env (_setup_local_environment w st).1 !! "user"
    = match env st !! "user" with
      | Some u => Some u
      | None => VStr <$> w_environ w !! "USER"
      end /\
  env (_setup_local_environment w st).1 !! "java_home"
    = Some (default (VStr (default "/usr/lib/jvm/java-6-openjdk"
                             (w_environ w !! "JAVA_HOME")))
                    (env st !! "java_home")) /\
  (forall k, k ∉ ["user"; "java_home"] ->
     env (_setup_local_environment w st).1 !! k = env st !! k).
Proof.
  intros H. rewrite local_environment_unfold. unfold local_java_home.
  destruct (env st !! "user") as [u|] eqn:Hu.
  - cbn [fst snd env]. split; [done |]. split; [by simpl_lookup |].
    split; [by simpl_lookup |]. intros k Hk. split_not_elem Hk. by simpl_lookup.
  - destruct (w_environ w !! "USER") as [name|] eqn:He.
    + cbn [fst snd env]. split; [done |]. split; [by simpl_lookup |].
      split; [by simpl_lookup |]. intros k Hk. split_not_elem Hk. by simpl_lookup.
    + destruct H as [[? ?] | [? ?]]; done.
Qed.

Lemma local_environment_fills_witness :
  (is_Some (env empty_state !! "user") \/ is_Some (w_environ bob_world !! "USER")) /\
  env (_setup_local_environment bob_world empty_state).1 !! "user" = Some (VStr "bob") /\
  env (_setup_local_environment bob_world empty_state).1 !! "java_home"
    = Some (VStr "/usr/lib/jvm/java-6-openjdk").
Proof.
  assert (is_Some (env empty_state !! "user") \/ is_Some (w_environ bob_world !! "USER"))
    as H by (right; by exists "bob").
  split; [exact H |].
  pose proof (local_environment_fills bob_world empty_state H) as (_ & Hu & Hj & _).
  split; [exact Hu | exact Hj].
Defined.

(** ** More on the vagrant-style host resolver *)

Section Vagrant.

Lemma py_dict_raise (pairs : list (list string)) (d : gmap string string) :
  Exists (fun ws => length ws <> 2%nat) pairs -> py_dict pairs d = Raise not_a_pair.
Proof.
  intros H. revert d. induction H as [ws l Hws | ws l _ IH]; intros d.
  - destruct ws as [|k [|v [|x ws]]]; done.
  - destruct ws as [|k [|v [|x ws]]]; try done. apply IH.
Qed.

Lemma py_dict_ok (pairs : list (list string)) (d : gmap string string) :
  Forall (fun ws => length ws = 2%nat) pairs -> exists d', py_dict pairs d = Ok d'.
Proof.
  intros H. revert d. induction H as [|ws l Hws _ IH]; intros d.
  - by exists d.
  - destruct ws as [|k [|v [|x ws]]]; try done. apply IH.
Qed.

Lemma py_dict_absent (pairs : list (list string)) (d d' : gmap string string) (k : string) :
  py_dict pairs d = Ok d' ->
  Forall (fun ws => head ws <> Some k) pairs ->
  d' !! k = d !! k.
Proof.
  revert d. induction pairs as [|ws l IH]; intros d Hrun Hk.
  - by injection Hrun as <-.
  - apply Forall_cons in Hk as [Hws Hl].
    destruct ws as [|k' [|v [|x ws]]]; try done.
    rewrite (IH _ Hrun Hl). apply lookup_insert_ne. intros ->. by apply Hws.
Qed.

Lemma py_dict_last (l1 l2 : list (list string)) (d d' : gmap string string)
    (k v : string) :
  py_dict (l1 ++ [k; v] :: l2) d = Ok d' ->
  Forall (fun ws => head ws <> Some k) l2 ->
  d' !! k = Some v.
Proof.
  revert d. induction l1 as [|ws l IH]; intros d Hrun Hk.
  - cbn [app py_dict] in Hrun. rewrite (py_dict_absent _ _ _ _ Hrun Hk).
    apply lookup_insert_eq.
  - destruct ws as [|k' [|v' [|x ws]]]; try done. by apply (IH _ Hrun).
Qed.

Variable w : world.

(** The resolver up to the dictionary. *)
Lemma vagrant_parse_raise (st : state) (raw : string) (e : exn) :
  w_vagrant w = Some raw ->
  parse_ssh_config raw = Raise e ->
  _setup_vagrant_environment w st =
    (State (env st) (log st ++ [(INFO, "Get vagrant environment"); (INFO, raw)]) (cmds st),
     Raise e).
Proof.
  intros Hw Hp. unfold _setup_vagrant_environment, mbind, M_bind, logger, lift, mret, M_ret.
  rewrite Hw. cbn [env log cmds]. rewrite Hp. by rewrite <- app_assoc.
Qed.

End Vagrant.

(** X9: for any output of [vagrant ssh-config] that parses to a dictionary
    with the keys User, HostName, Port and IdentityFile, the resolver
    returns and stores the user, the one-element hosts list, the port, the
    key file and the connection string user@host:port; no other field of
    the context changes. *)
Theorem vagrant_environment_fields (w : world) (st : state)
    (raw user host port key : string) (d : gmap string string) :
  w_vagrant w = Some raw ->
  parse_ssh_config raw = Ok d ->
  d !! "User" = Some user -> d !! "HostName" = Some host ->
  d !! "Port" = Some port -> d !! "IdentityFile" = Some key ->
  (_setup_vagrant_environment w st).2 = Ok tt /\
  env (_setup_vagrant_environment w st).1 !! "user" = Some (VStr user) /\
  env (_setup_vagrant_environment w st).1 !! "hosts" = Some (VList [host]) /\
  env (_setup_vagrant_environment w st).1 !! "port" = Some (VStr port) /\
  env (_setup_vagrant_environment w st).1 !! "key_filename" = Some (VStr key) /\
  env (_setup_vagrant_environment w st).1 !! "host_string"
    = Some (VStr (user +:+ "@" +:+ host +:+ ":" +:+ port)) /\
  (forall k, k ∉ ["user"; "hosts"; "port"; "host_string"; "key_filename"] ->
     env (_setup_vagrant_environment w st).1 !! k = env st !! k).
Proof.
  intros Hw Hp Hu Hh Hpo Hk.
  rewrite (setup_vagrant_environment_run w st raw user host port key d Hw Hp Hu Hh Hpo Hk).
  cbn [fst snd env]. repeat split; try by simpl_lookup.
  intros k Hnot. split_not_elem Hnot. by simpl_lookup.
Qed.

Lemma vagrant_environment_fields_witness :
  w_vagrant (vagrant_world vagrant_output) = Some vagrant_output /\
  env (_setup_vagrant_environment (vagrant_world vagrant_output) empty_state).1
    !! "hosts" = Some (VList ["127.0.0.1"]).
Proof.
  split; [reflexivity |].
  pose proof (vagrant_environment_fields (vagrant_world vagrant_output) empty_state
                vagrant_output "vagrant" "127.0.0.1" "2222" "/key" _
                eq_refl parse_vagrant_output) as H.
  exact (proj1 (proj2 (proj2 (H ltac:(vm_compute; reflexivity) ltac:(vm_compute; reflexivity)
                                ltac:(vm_compute; reflexivity) ltac:(vm_compute; reflexivity))))).
Defined.

(** X10: a key missing from the output of [vagrant ssh-config] raises a key
    error at the point where the resolver reads it.  Without User nothing
    has been stored yet; without IdentityFile the user, the hosts list, the
    port and the connection string are already in the context, and
    [key_filename] is left as it was. *)
Theorem vagrant_environment_missing_key (w : world) (st : state)
    (raw : string) (d : gmap string string) :
  w_vagrant w = Some raw ->
  parse_ssh_config raw = Ok d ->
  (d !! "User" = None ->
   (_setup_vagrant_environment w st).2 = Raise (KeyError "User") /\
   env (_setup_vagrant_environment w st).1 = env st) /\
  (forall user host port,
   d !! "User" = Some user -> d !! "HostName" = Some host -> d !! "Port" = Some port ->
   d !! "IdentityFile" = None ->
   (_setup_vagrant_environment w st).2 = Raise (KeyError "IdentityFile") /\
   env (_setup_vagrant_environment w st).1 !! "host_string"
     = Some (VStr (user +:+ "@" +:+ host +:+ ":" +:+ port)) /\
   env (_setup_vagrant_environment w st).1 !! "hosts" = Some (VList [host]) /\
   env (_setup_vagrant_environment w st).1 !! "key_filename" = env st !! "key_filename").
Proof.
  intros Hw Hp. split.
  - intros Hu.
    unfold _setup_vagrant_environment, mbind, M_bind, logger, lift, getitem, raise,
      mret, M_ret. rewrite Hw. cbn [env log cmds]. rewrite Hp, Hu. done.
  - intros user host port Hu Hh Hpo Hk.
    unfold _setup_vagrant_environment, mbind, M_bind, logger, setattr, getattr, lift,
      getitem, raise, mret, M_ret. rewrite Hw. cbn [env log cmds].
    rewrite Hp, Hu, Hh, Hpo, Hk. cbn [env log cmds].
    repeat (first [rewrite lookup_insert_eq | rewrite lookup_insert_ne by done];
            cbn [env log cmds py_first]).
    rewrite host_string_format. cbn [fst snd env log cmds].
    repeat split; by simpl_lookup.
Qed.

Lemma vagrant_environment_missing_key_witness :
  w_vagrant (vagrant_world no_key_output) = Some no_key_output /\
  (_setup_vagrant_environment (vagrant_world no_key_output) empty_state).2
    = Raise (KeyError "IdentityFile") /\
  env (_setup_vagrant_environment (vagrant_world no_key_output) empty_state).1
    !! "host_string" = Some (VStr "vagrant@127.0.0.1:2222").
Proof.
  split; [reflexivity |].
  assert (parse_ssh_config no_key_output
          = Ok (<["Port":="2222"]> (<["HostName":="127.0.0.1"]> (<["User":="vagrant"]> ∅))))
    as Hp by (vm_compute; reflexivity).
  pose proof (proj2 (vagrant_environment_missing_key (vagrant_world no_key_output)
                       empty_state no_key_output _ eq_refl Hp)
                "vagrant" "127.0.0.1" "2222"
                ltac:(vm_compute; reflexivity) ltac:(vm_compute; reflexivity)
                ltac:(vm_compute; reflexivity) ltac:(vm_compute; reflexivity))
    as (H1 & H2 & _).
  split; [exact H1 | exact H2].
Defined.

(** X11: every non-empty line of the output has to consist of exactly two
    words.  A line with one word, with three, or of blanks only (it passes
    the test [if l] and splits to no word) makes [dict] fail: the resolver
    raises a value error and no field of the context has changed. *)
Theorem vagrant_environment_malformed_line (w : world) (st : state) (raw : string) :
  w_vagrant w = Some raw ->
  Exists (fun ws => length ws <> 2%nat) (config_words raw) ->
  (_setup_vagrant_environment w st).2 = Raise not_a_pair /\
  env (_setup_vagrant_environment w st).1 = env st.
Proof.
  intros Hw Hbad.
  rewrite (vagrant_parse_raise w st raw not_a_pair Hw); [done |].
  by apply py_dict_raise.
Qed.

Lemma vagrant_environment_malformed_line_witness :
  w_vagrant (vagrant_world blank_line_output) = Some blank_line_output /\
  (_setup_vagrant_environment (vagrant_world blank_line_output) empty_state).2
    = Raise not_a_pair.
Proof.
  split; [reflexivity |].
  assert (Exists (fun ws : list string => length ws <> 2%nat)
            (config_words blank_line_output)) as H.
  { assert (config_words blank_line_output = [["User"; "vagrant"]; []; ["Port"; "2222"]])
      as -> by (vm_compute; reflexivity).
    apply Exists_cons_tl, Exists_cons_hd. discriminate. }
  exact (proj1 (vagrant_environment_malformed_line (vagrant_world blank_line_output)
                  empty_state blank_line_output eq_refl H)).
Defined.

(** X12: when every non-empty line has two words, the output parses, and a
    key that stands on several lines gets the value of the last of them; a
    word that starts no line is not a key. *)
Theorem parse_ssh_config_last_wins (raw : string) :
  Forall (fun ws => length ws = 2%nat) (config_words raw) ->
  exists d, parse_ssh_config raw = Ok d /\
    (forall l1 l2 k v,
       config_words raw = (l1 ++ [k; v] :: l2)%list ->
       Forall (fun ws => head ws <> Some k) l2 ->
       d !! k = Some v) /\
    (forall k, Forall (fun ws => head ws <> Some k) (config_words raw) -> d !! k = None).
Proof.
  intros H. destruct (py_dict_ok (config_words raw) ∅ H) as [d Hd].
  exists d. split; [exact Hd |]. split.
  - intros l1 l2 k v Hsplit Hl2. unfold parse_ssh_config in Hd.
    fold (config_words raw) in Hd. rewrite Hsplit in Hd.
    by apply (py_dict_last l1 l2 ∅ d).
  - intros k Hk. by rewrite (py_dict_absent _ ∅ d k Hd Hk).
Qed.

Lemma parse_ssh_config_last_wins_witness :
  Forall (fun ws => length ws = 2%nat) (config_words two_ports_output) /\
  exists d, parse_ssh_config two_ports_output = Ok d /\ d !! "Port" = Some "2222".
Proof.
  assert (config_words two_ports_output
          = ([["Port"; "22"]; ["User"; "vagrant"]] ++ ["Port"; "2222"] :: [])%list)
    as Hw by (vm_compute; reflexivity).
  assert (Forall (fun ws => length ws = 2%nat) (config_words two_ports_output)) as H.
  { rewrite Hw. repeat constructor. }
  split; [exact H |].
  destruct (parse_ssh_config_last_wins two_ports_output H) as (d & Hd & Hlast & _).
  exists d. split; [exact Hd |].
  exact (Hlast _ _ "Port" "2222" Hw ltac:(constructor)).
Defined.

(** ** Running the adjustors again *)

Section Adjustors.

(** The selector, case by case on the flag. *)
Lemma configure_sudo_unfold (st : state) :
  _configure_sudo st =
    match default (VStr "true") (env st !! "use_sudo") with
    | VStr s =>
        (State (<["use_sudo":=VBool (sudo_flag s)]>
                  (<["safe_sudo":=VExec (if sudo_flag s then Sudo else Run)]> (env st)))
               (log st) (cmds st), Ok tt)
    | _ => (st, Raise (AttributeError "lower"))
    end.
Proof.
  unfold _configure_sudo, sudo_flag. rewrite run_bind. unfold getattr_default.
  rewrite run_bind. unfold lift.
  destruct (default (VStr "true") (env st !! "use_sudo")) as [s| | |]; cbn [py_lower];
    try done.
  by case_bool_decide.
Qed.

End Adjustors.

(** X13: the sudo-policy selector cannot be run twice.  Whenever it
    returns, [use_sudo] is a boolean and [safe_sudo] the matching
    primitive; a second run on that context reads the boolean, finds no
    [lower] method on it, and raises an attribute error without changing
    anything. *)
Theorem configure_sudo_not_rerunnable (st : state) :
  (_configure_sudo st).2 = Ok tt ->
  (exists b : bool,
     env (_configure_sudo st).1 !! "use_sudo" = Some (VBool b) /\
     env (_configure_sudo st).1 !! "safe_sudo" = Some (VExec (if b then Sudo else Run))) /\
  _configure_sudo (_configure_sudo st).1
    = ((_configure_sudo st).1, Raise (AttributeError "lower")).
Proof.
  rewrite (configure_sudo_unfold st).
  destruct (default (VStr "true") (env st !! "use_sudo")) as [s| | |]; try done.
  intros _. cbn [fst snd]. split.
  - exists (sudo_flag s). cbn [env]. by simpl_lookup.
  - rewrite configure_sudo_unfold. cbn [env]. by rewrite lookup_insert_eq.
Qed.

Lemma configure_sudo_not_rerunnable_witness :
  (_configure_sudo empty_state).2 = Ok tt /\
  (_configure_sudo (_configure_sudo empty_state).1).2 = Raise (AttributeError "lower").
Proof.
  split; [reflexivity |].
  exact (f_equal snd (proj2 (configure_sudo_not_rerunnable empty_state eq_refl))).
Defined.

(** X14: the selector raises exactly when [use_sudo] holds something that
    is not a string, and then it leaves the state as it was: neither
    [use_sudo] nor [safe_sudo] is assigned. *)
Theorem configure_sudo_raises_on_non_string (st : state) :
  ((exists e, (_configure_sudo st).2 = Raise e) <->
   (exists v, env st !! "use_sudo" = Some v /\ forall s, v <> VStr s)) /\
  (forall e, (_configure_sudo st).2 = Raise e ->
     e = AttributeError "lower" /\ (_configure_sudo st).1 = st).
Proof.
  rewrite (configure_sudo_unfold st).
  destruct (env st !! "use_sudo") as [v|] eqn:Hv; cbn [default].
  - destruct v as [s|b|l|x]; cbn [fst snd]; (split; [split |]).
    + intros [e ?]. done.
    + intros (v & [= <-] & Hs). by destruct (Hs s).
    + intros e ?. done.
    + intros _. eexists. split; [done | intros s; done].
    + intros _. by eexists.
    + by intros e [= <-].
    + intros _. eexists. split; [done | intros s; done].
    + intros _. by eexists.
    + by intros e [= <-].
    + intros _. eexists. split; [done | intros s; done].
    + intros _. by eexists.
    + by intros e [= <-].
  - cbn [fst snd]. split; [split |].
    + intros [e ?]. done.
    + intros (v & ? & _). done.
    + intros e ?. done.
Qed.

(** X15: the overlay toggle is not idempotent on a request.  On a context
    whose distribution tag is a string, a second run always returns with
    [nixpkgs] set to [False], even when the first run enabled the overlay:
    the boolean it left is not the string "True". *)
Theorem setup_nixpkgs_twice (st : state) (d : string) :
  env st !! "distribution" = Some (VStr d) ->
  (_setup_nixpkgs (_setup_nixpkgs st).1).2 = Ok tt /\
  env (_setup_nixpkgs (_setup_nixpkgs st).1).1 !! "nixpkgs" = Some (VBool false).
Proof.
  intros Hd. rewrite (setup_nixpkgs_run st d Hd). cbv zeta. cbn [fst].
  rewrite (setup_nixpkgs_run _ d) by (cbn [env]; by simpl_lookup).
  cbv zeta. cbn [fst snd env]. split; [done |].
  rewrite !lookup_insert_eq.
  by rewrite bool_decide_eq_false_2 by (by intros [[=] _]).
Qed.

Lemma setup_nixpkgs_twice_witness :
  env debian_nix_state !! "distribution" = Some (VStr "debian") /\
  env (_setup_nixpkgs debian_nix_state).1 !! "nixpkgs" = Some (VBool true) /\
  env (_setup_nixpkgs (_setup_nixpkgs debian_nix_state).1).1 !! "nixpkgs"
    = Some (VBool false).
Proof.
  split; [reflexivity |]. split; [reflexivity |].
  exact (proj2 (setup_nixpkgs_twice debian_nix_state "debian" eq_refl)).
Defined.

(** X16: the toggle looks at the distribution tag only when [nixpkgs] is
    set.  Without the field it returns on any context, a missing tag
    included, with [nixpkgs] set to [False]; with the field and without a
    tag it raises an attribute error and changes nothing. *)
Theorem setup_nixpkgs_reads_tag_on_request (st : state) :
  (env st !! "nixpkgs" = None ->
   _setup_nixpkgs st =
     (State (<["nixpkgs":=VBool false]> (env st))
            (log st ++ [(DEBUG, "NixPkgs: Ignored")]) (cmds st), Ok tt)) /\
  (is_Some (env st !! "nixpkgs") -> env st !! "distribution" = None ->
   _setup_nixpkgs st = (st, Raise (AttributeError "distribution"))).
Proof.
  unfold _setup_nixpkgs, mbind, M_bind, has_key, getattr, logger, setattr, mret, M_ret.
  split.
  - intros Hn. rewrite Hn. by rewrite bool_decide_eq_false_2 by (by intros [? ?]).
  - intros Hn Hd. rewrite bool_decide_eq_true_2 by done. by rewrite Hd.
Qed.

(** ** More on the target validator *)

Section ValidatorMore.

Variable w : world.

(** The validator on a tag of the Debian family, whatever the reads do. *)
Lemma validate_debian_unfold (st : state) (tag : string) :
  debian_family tag ->
  env st !! "distribution" = Some (VStr tag) ->
  _validate_target_distribution w (VStr tag) st =
    let l := (log st ++ [(DEBUG, "Checking target distribution " +:+ tag)])%list in
    match w_run w "cat /proc/version" with
    | None => (State (env st) l (cmds st ++ ["cat /proc/version"]),
               Raise (SystemExit "cat /proc/version"))
    | Some o1 =>
        if PyStr.find (PyStr.lower o1) tag =? -1 then
          (State (env st) l (cmds st ++ ["cat /proc/version"; "cat /etc/issue"]),
           match w_run w "cat /etc/issue" with
           | None => Raise (SystemExit "cat /etc/issue")
           | Some o2 =>
               if PyStr.find (PyStr.lower o2) tag =? -1 then Raise (mismatch tag) else Ok tt
           end)
        else (State (env st) l (cmds st ++ ["cat /proc/version"]), Ok tt)
    end.
Proof.
  intros Hfam Hd.
  unfold _validate_target_distribution, mbind, M_bind, getattr, lift, logger, run,
    raise, mret, M_ret. rewrite Hd. cbn [py_concat env log cmds].
  rewrite in_debian_family, bool_decide_eq_true_2 by done.
  destruct (w_run w "cat /proc/version") as [o1|]; [| done]. cbn [py_find env log cmds].
  destruct (PyStr.find (PyStr.lower o1) tag =? -1); [| done].
  cbn [env log cmds]. rewrite <- app_assoc.
  destruct (w_run w "cat /etc/issue") as [o2|]; [| done]. cbn [py_find py_concat env log cmds].
  by destruct (PyStr.find (PyStr.lower o2) tag =? -1).
Qed.

End ValidatorMore.

(** X17: the validator never changes a field of the context, whatever tag
    it is given and however it ends. *)
Theorem validate_keeps_env (w : world) (dist : value) (st : state) :
  env (_validate_target_distribution w dist st).1 = env st.
Proof. by apply (stable_validate w (fun e => e = env st) dist st). Qed.

(** X18: for debian and ubuntu, a /proc/version that names the tag (case
    ignored) is enough: the validator returns after that one read, whether
    or not /etc/issue could be read. *)
Theorem validate_first_read_enough (w : world) (st : state) (tag o1 : string) :
  debian_family tag ->
  env st !! "distribution" = Some (VStr tag) ->
  w_run w "cat /proc/version" = Some o1 ->
  occurs_ci tag o1 ->
  _validate_target_distribution w (VStr tag) st =
    (State (env st) (log st ++ [(DEBUG, "Checking target distribution " +:+ tag)])
           (cmds st ++ ["cat /proc/version"]), Ok tt).
Proof.
  intros Hfam Hd H1 Ho. rewrite (validate_debian_unfold w st tag Hfam Hd), H1. cbv zeta.
  destruct (PyStr.find (PyStr.lower o1) tag =? -1) eqn:E; [| done].
  by apply (find_occurs_ci tag o1 Hfam) in E.
Qed.

Lemma validate_first_read_enough_witness :
  debian_family "debian" /\
  w_run debian_proc_world "cat /etc/issue" = None /\
  _validate_target_distribution debian_proc_world (VStr "debian") debian_state =
    (State (env debian_state) [(DEBUG, "Checking target distribution debian")]
           ["cat /proc/version"], Ok tt).
Proof.
  split; [by left |]. split; [reflexivity |].
  exact (validate_first_read_enough debian_proc_world debian_state "debian"
           "Linux version 2.6.32 (Debian 2.6.32-48)" (or_introl eq_refl) eq_refl eq_refl
           ltac:(by exists "linux version 2.6.32 (", " 2.6.32-48)")).
Defined.

(** X19: a remote read that aborts ends the validation with Fabric's
    abort for that command: at once for /proc/version, and for /etc/issue
    when /proc/version was read and does not name the tag. *)
Theorem validate_read_aborts (w : world) (st : state) (tag : string) :
  debian_family tag ->
  env st !! "distribution" = Some (VStr tag) ->
  (w_run w "cat /proc/version" = None ->
   (_validate_target_distribution w (VStr tag) st).2
     = Raise (SystemExit "cat /proc/version") /\
   cmds (_validate_target_distribution w (VStr tag) st).1
     = (cmds st ++ ["cat /proc/version"])%list) /\
  (forall o1, w_run w "cat /proc/version" = Some o1 -> ~ occurs_ci tag o1 ->
   w_run w "cat /etc/issue" = None ->
   (_validate_target_distribution w (VStr tag) st).2 = Raise (SystemExit "cat /etc/issue")).
Proof.
  intros Hfam Hd. rewrite (validate_debian_unfold w st tag Hfam Hd). cbv zeta. split.
  - by intros ->.
  - intros o1 -> Hn ->. apply (find_occurs_ci tag o1 Hfam) in Hn. by rewrite Hn.
Qed.

Lemma validate_read_aborts_witness :
  debian_family "debian" /\
  (_validate_target_distribution unreachable_world (VStr "debian") debian_state).2
    = Raise (SystemExit "cat /proc/version").
Proof.
  split; [by left |].
  exact (proj1 (proj1 (validate_read_aborts unreachable_world debian_state "debian"
                         (or_introl eq_refl) eq_refl) eq_refl)).
Defined.

(** ** More on the dispatcher *)

Section DispatcherMore.

Variable w : world.

Lemma bind_ok_inv {A B} (m : M A) (f : A -> M B) (st st' : state) (b : B) :
  (m ≫= f) st = (st', Ok b) ->
  exists st0 a, m st = (st0, Ok a) /\ f a st0 = (st', Ok b).
Proof.
  rewrite run_bind. destruct (m st) as [st0 [a|e]]; [| done]. by exists st0, a.
Qed.

(** The last step of a set-up that returns. *)
Lemma from_shim_ok_inv (st st' : state) :
  setup_from_shim w st = (st', Ok tt) ->
  exists machine, w_run w "uname -m" = Some machine /\
    env st' !! "is_64bit" = Some (VBool (0 <? PyStr.find machine "_64")).
Proof.
  unfold setup_from_shim. intros H.
  apply bind_ok_inv in H as (st1 & [] & _ & H).
  apply bind_ok_inv in H as (st2 & [] & _ & H).
  apply bind_ok_inv in H as (st3 & [] & _ & H).
  apply bind_ok_inv in H as (st4 & machine & Hrun & H).
  exists machine. unfold run in Hrun.
  destruct (w_run w "uname -m") as [out|]; [| done].
  injection Hrun as <- <-. split; [done |].
  unfold setattr in H. injection H as <-. cbn [env]. apply lookup_insert_eq.
Qed.

End DispatcherMore.

(** X20: when the set-up returns, [is_64bit] is a boolean computed from
    the output of [uname -m]: it is [True] exactly when "_64" occurs in the
    output but not at its very start (the test is [find > 0]). *)
Theorem dispatcher_is_64bit (w : world) (st st' : state) :
  _setup_distribution_environment w st = (st', Ok tt) ->
  exists (machine : string) (b : bool),
    w_run w "uname -m" = Some machine /\
    env st' !! "is_64bit" = Some (VBool b) /\
    (b = true <-> occurs "_64" machine /\ String.prefix "_64" machine = false).
Proof.
  rewrite dispatcher_split. intros H.
  apply bind_ok_inv in H as (st1 & [] & _ & H).
  apply from_shim_ok_inv in H as (machine & Hrun & H64).
  exists machine, (0 <? PyStr.find machine "_64"). split; [done |]. split; [done |].
  rewrite Z.ltb_lt. apply find_pos.
Qed.

Lemma dispatcher_is_64bit_witness :
  (_setup_distribution_environment i686_world centos_state).2 = Ok tt /\
  exists (machine : string) (b : bool),
    w_run i686_world "uname -m" = Some machine /\
    env (_setup_distribution_environment i686_world centos_state).1 !! "is_64bit"
      = Some (VBool b) /\
    (b = true <-> occurs "_64" machine /\ String.prefix "_64" machine = false).
Proof.
  assert ((_setup_distribution_environment i686_world centos_state).2 = Ok tt) as H
    by (vm_compute; reflexivity).
  split; [exact H |].
  apply (dispatcher_is_64bit i686_world centos_state).
  destruct (_setup_distribution_environment i686_world centos_state) as [st' r].
  cbn [fst snd] in *. by rewrite H.
Defined.

(** X21: the dispatcher needs [distribution] and [hosts].  Without a
    distribution tag it raises an attribute error before anything else
    happens; with a string tag and without [hosts] it raises after its
    first log line, and no field of the context has changed. *)
Theorem dispatcher_needs_tag_and_hosts (w : world) (st : state) :
  (env st !! "distribution" = None ->
   _setup_distribution_environment w st = (st, Raise (AttributeError "distribution"))) /\
  (forall tag, env st !! "distribution" = Some (VStr tag) -> env st !! "hosts" = None ->
   _setup_distribution_environment w st =
     (State (env st) (log st ++ [(INFO, "Distribution " +:+ tag)]) (cmds st),
      Raise (AttributeError "hosts"))).
Proof.
  split.
  - intros Hd. unfold _setup_distribution_environment. rewrite run_bind.
    unfold getattr. by rewrite Hd.
  - intros tag Hd Hh. unfold _setup_distribution_environment. rewrite run_bind.
    unfold getattr at 1. rewrite Hd. rewrite run_bind. unfold lift.
    rewrite distribution_line. rewrite run_bind. unfold logger. rewrite run_bind.
    unfold getattr. cbn [env]. by rewrite Hh.
Qed.

Section DispatcherRuns.

Variable w : world.

Lemma deb_profile_run (p : profile) (st : state) (v : string) :
  p = Ubuntu \/ p = Debian ->
  env st !! "dist_name" = Some (VStr v) ->
  exists l, run_profile p st =
    (State (<["std_sources":=VList (family_sources p v)]> (deb_general_env (env st)))
           l (cmds st), Ok tt).
Proof.
  intros [-> | ->] Hv; eexists.
  - apply (ubuntu_run st v Hv).
  - apply (debian_run st v Hv).
Qed.

Lemma tag_of_debian_family (p : profile) :
  debian_family (tag_of p) <-> p = Ubuntu \/ p = Debian.
Proof. unfold debian_family. destruct p; cbn [tag_of]; split; intros [?|?]; auto; done. Qed.

End DispatcherRuns.

(** X22: a validation that fails does not undo the profile.  For ubuntu
    and debian with a release name, when host resolution has completed
    and neither /proc/version nor /etc/issue names the tag, the dispatcher
    raises the mismatch error; [std_sources] and the interpreter suffix of
    the profile are in the context by then, while the fields of the later
    adjustors are as before the call. *)
Theorem dispatcher_mismatch_after_profile (w : world) (st st1 : state) (p : profile)
    (v o1 o2 : string) :
  p = Ubuntu \/ p = Debian ->
  env st !! "distribution" = Some (VStr (tag_of p)) ->
  env st !! "dist_name" = Some (VStr v) ->
  setup_through_hosts w st = (st1, Ok tt) ->
  w_run w "cat /proc/version" = Some o1 ->
  w_run w "cat /etc/issue" = Some o2 ->
  ~ occurs_ci (tag_of p) o1 -> ~ occurs_ci (tag_of p) o2 ->
  (_setup_distribution_environment w st).2 = Raise (mismatch (tag_of p)) /\
  env (_setup_distribution_environment w st).1 !! "std_sources"
    = Some (VList (family_sources p v)) /\
  env (_setup_distribution_environment w st).1 !! "python_version_ext" = Some (VStr "") /\
  (forall k, k ∈ adjustor_fields ->
     env (_setup_distribution_environment w st).1 !! k = env st !! k).
Proof.
  intros Hp Hd Hv Hhosts H1 H2 Hn1 Hn2.
  assert (debian_family (tag_of p)) as Hfam by by apply tag_of_debian_family.
  assert (forall k x, k ∉ ["user"; "hosts"; "port"; "host_string"; "key_filename";
                           "java_home"] ->
            env st !! k = x -> env st1 !! k = x) as Hframe.
  { intros k x Hk. apply (stable_run_eq (holds k x) _ _ _ _
                            (stable_through_hosts w k x Hk) Hhosts). }
  destruct (deb_profile_run p st1 v Hp (Hframe "dist_name" _ ltac:(solve_not_elem) Hv)) as [l Hrun].
  assert (exists l' c', _setup_distribution_environment w st =
            (State (<["std_sources":=VList (family_sources p v)]>
                      (deb_general_env (env st1))) l' c',
             Raise (mismatch (tag_of p)))) as (l' & c' & ->).
  { rewrite dispatcher_split. unfold setup_through_validation.
    rewrite run_bind, (run_bind (setup_through_hosts w)), Hhosts.
    rewrite run_bind, (setup_profile_run p st1)
      by (apply Hframe; [solve_not_elem | done]).
    rewrite Hrun. rewrite run_bind. unfold getattr at 1. cbn [env].
    rewrite lookup_insert_ne by done. rewrite deb_general_env_other by solve_not_elem.
    rewrite (Hframe "distribution" _ ltac:(solve_not_elem) Hd).
    rewrite (validate_debian_run w _ (tag_of p) o1 o2 Hfam); try done.
    2: { cbn [env]. rewrite lookup_insert_ne by done.
         rewrite deb_general_env_other by solve_not_elem.
         apply Hframe; [solve_not_elem | done]. }
    apply (find_occurs_ci (tag_of p) o1 Hfam) in Hn1.
    apply (find_occurs_ci (tag_of p) o2 Hfam) in Hn2.
    cbv zeta. rewrite Hn1, Hn2. by eexists _, _. }
  cbn [fst snd env].
  split; [done |]. split; [by rewrite lookup_insert_eq |]. split.
  - rewrite lookup_insert_ne by done. unfold deb_general_env.
    destruct (env st1 !! "java_home"); by simpl_lookup.
  - intros k Hk. unfold adjustor_fields in Hk. rewrite !elem_of_cons, elem_of_nil in Hk.
    destruct Hk as [-> | [-> | [-> | [-> | [-> | []]]]]];
      rewrite lookup_insert_ne by done;
      rewrite deb_general_env_other by solve_not_elem;
      (apply Hframe; [solve_not_elem | done]).
Qed.

Lemma dispatcher_mismatch_after_profile_witness :
  setup_through_hosts wrong_machine_world debian_squeeze_state
    = (State (env debian_squeeze_state) [(INFO, "Distribution debian")] [], Ok tt) /\
  (_setup_distribution_environment wrong_machine_world debian_squeeze_state).2
    = Raise (mismatch "debian") /\
  env (_setup_distribution_environment wrong_machine_world debian_squeeze_state).1
    !! "python_version_ext" = Some (VStr "").
Proof.
  assert (setup_through_hosts wrong_machine_world debian_squeeze_state
          = (State (env debian_squeeze_state) [(INFO, "Distribution debian")] [], Ok tt))
    as Hh by (vm_compute; reflexivity).
  assert (~ occurs_ci "debian" "CentOS release 6.2 (Final)") as Hn.
  { apply (find_occurs_ci "debian" _ (or_introl eq_refl)). reflexivity. }
  split; [exact Hh |].
  pose proof (dispatcher_mismatch_after_profile wrong_machine_world debian_squeeze_state _
                Debian "squeeze" _ _ (or_intror eq_refl) eq_refl eq_refl Hh
                eq_refl eq_refl Hn Hn) as (Hr & _ & Hpy & _).
  split; [exact Hr | exact Hpy].
Defined.

Section DispatcherEnds.

Variable w : world.

(** What the adjustors leave, when they all return. *)
Lemma from_shim_ok_env (st st' : state) :
  setup_from_shim w st = (st', Ok tt) ->
  exists (v : value) (n b a : bool),
    env st !! "system_install" = Some v /\
    env st' =
      <["is_64bit":=VBool a]>
        (<["use_sudo":=VBool b]>
           (<["safe_sudo":=VExec (if b then Sudo else Run)]>
              (<["nixpkgs":=VBool n]> (<["install_dir":=v]> (env st))))).
Proof.
  unfold setup_from_shim. intros H.
  apply bind_ok_inv in H as (st1 & [] & Hshim & H).
  apply bind_ok_inv in H as (st2 & [] & Hnix & H).
  apply bind_ok_inv in H as (st3 & [] & Hsudo & H).
  apply bind_ok_inv in H as (st4 & machine & Hrun & H).
  (* the shim *)
  unfold _cloudman_compatibility in Hshim.
  apply bind_ok_inv in Hshim as (s & v & Hget & Hset).
  unfold getattr in Hget. destruct (env st !! "system_install") as [v'|] eqn:Hv; [| done].
  injection Hget as <- <-. unfold setattr in Hset. injection Hset as <-.
  (* the toggle *)
  unfold _setup_nixpkgs in Hnix.
  apply bind_ok_inv in Hnix as (s1 & k & Hkey & Hnix).
  unfold has_key in Hkey. injection Hkey as <- _.
  apply bind_ok_inv in Hnix as (s2 & n & Hblock & Hnix).
  apply bind_ok_inv in Hnix as (s3 & [] & Hlog & Hnix).
  assert (env s2 = <["install_dir":=v']> (env st)) as E2.
  { refine (stable_run_eq (fun e => e = <["install_dir":=v']> (env st)) _ _ _ _ _ Hblock
              eq_refl).
    solve_stable. }
  assert (env s3 = env s2) as E3.
  { destruct n; unfold logger in Hlog; by injection Hlog as <-. }
  unfold setattr in Hnix. injection Hnix as <-.
  (* the selector *)
  rewrite configure_sudo_unfold in Hsudo.
  destruct (default (VStr "true") _) as [flag|?|?|?]; try done.
  injection Hsudo as <-.
  (* the probe *)
  unfold run in Hrun. destruct (w_run w "uname -m") as [out|]; [| done].
  injection Hrun as <- <-. unfold setattr in H. injection H as <-.
  exists v', n, (sudo_flag flag), (0 <? PyStr.find out "_64").
  split; [done |]. cbn [env]. by rewrite E3, E2.
Qed.

End DispatcherEnds.

(** X23: what a set-up that returns has established.  [system_install] was
    set and [install_dir] is its copy; [use_sudo] is a boolean and
    [safe_sudo] the matching primitive; [nixpkgs] and [is_64bit] are
    booleans; [java_home] is set; and the tag of the context is one of the
    four known ones. *)
Theorem dispatcher_postcondition (w : world) (st st' : state) :
  _setup_distribution_environment w st = (st', Ok tt) ->
  is_Some (env st !! "system_install") /\
  env st' !! "install_dir" = env st !! "system_install" /\
  (exists b : bool,
     env st' !! "use_sudo" = Some (VBool b) /\
     env st' !! "safe_sudo" = Some (VExec (if b then Sudo else Run))) /\
  (exists n : bool, env st' !! "nixpkgs" = Some (VBool n)) /\
  (exists a : bool, env st' !! "is_64bit" = Some (VBool a)) /\
  is_Some (env st' !! "java_home") /\
  (exists p, env st !! "distribution" = Some (VStr (tag_of p))).
Proof.
  rewrite dispatcher_split. intros H.
  apply bind_ok_inv in H as (st1 & [] & Hval & Hshim).
  apply from_shim_ok_env in Hshim as (v & n & b & a & Hv & ->).
  assert (env st1 !! "system_install" = env st !! "system_install") as Hsys.
  { apply (stable_run_eq (holds "system_install" (env st !! "system_install")) _ _ _ _
             (stable_through_validation w "system_install" _ ltac:(solve_not_elem)) Hval).
    done. }
  pose proof (through_validation_ok w st st1 Hval) as Hj.
  split; [by rewrite <- Hsys, Hv |]. split; [simpl_lookup; by rewrite <- Hsys |].
  split; [exists b; by simpl_lookup |]. split; [exists n; by simpl_lookup |].
  split; [exists a; by simpl_lookup |]. split; [by simpl_lookup |].
  unfold setup_through_validation in Hval.
  apply bind_ok_inv in Hval as (st0 & [] & Hhosts & Hval).
  apply bind_ok_inv in Hval as (st2 & [] & Hprof & _).
  destruct (setup_profile_ok st0 st2 Hprof) as (p & Hp & _).
  exists p.
  assert (forall x, env st0 !! "distribution" = x -> env st !! "distribution" = x) as Hback.
  { intros x <-. symmetry.
    by apply (stable_run_eq (holds "distribution" (env st !! "distribution")) _ _ _ _
                (stable_through_hosts w "distribution" _ ltac:(solve_not_elem)) Hhosts). }
  by apply Hback.
Qed.

Lemma dispatcher_postcondition_witness :
  (_setup_distribution_environment centos_world centos_state).2 = Ok tt /\
  env (_setup_distribution_environment centos_world centos_state).1 !! "install_dir"
    = env centos_state !! "system_install".
Proof.
  assert ((_setup_distribution_environment centos_world centos_state).2 = Ok tt) as H
    by (vm_compute; reflexivity).
  split; [exact H |].
  refine (proj1 (proj2 (dispatcher_postcondition centos_world centos_state _ _))).
  destruct (_setup_distribution_environment centos_world centos_state) as [st' r].
  cbn [fst snd] in *. by rewrite H.
Defined.

Section DispatcherReturns.

Variable w : world.

Lemma rpm_profile_returns (p : profile) (st : state) :
  p = Centos \/ p = ScientificLinux -> (run_profile p st).2 = Ok tt.
Proof.
  intros [-> | ->]; unfold run_profile, _setup_centos, _setup_scientificlinux;
    rewrite run_bind; unfold logger at 1; cbv beta iota;
    repeat (rewrite (run_bind (setattr _ _)); unfold setattr at 1; cbv beta iota);
    by rewrite fill_run.
Qed.

Lemma profile_returns (p : profile) (st : state) :
  (p = Ubuntu \/ p = Debian -> exists v, env st !! "dist_name" = Some (VStr v)) ->
  (run_profile p st).2 = Ok tt.
Proof.
  intros Hv. destruct p.
  - destruct (Hv (or_introl eq_refl)) as [v Hd].
    destruct (deb_profile_run Ubuntu st v (or_introl eq_refl) Hd) as [l ->]. done.
  - apply rpm_profile_returns. by left.
  - apply rpm_profile_returns. by right.
  - destruct (Hv (or_intror eq_refl)) as [v Hd].
    destruct (deb_profile_run Debian st v (or_intror eq_refl) Hd) as [l ->]. done.
Qed.

Lemma validate_returns (st : state) (tag : string) :
  machine_matches w tag ->
  env st !! "distribution" = Some (VStr tag) ->
  (_validate_target_distribution w (VStr tag) st).2 = Ok tt.
Proof.
  intros Hm Hd.
  destruct (bool_decide (debian_family tag)) eqn:E.
  - apply bool_decide_eq_true in E. destruct (Hm E) as (o1 & H1 & Ho).
    rewrite (validate_debian_unfold w st tag E Hd), H1. cbv zeta.
    destruct (PyStr.find (PyStr.lower o1) tag =? -1) eqn:E1; [| done].
    apply (find_occurs_ci tag o1 E) in E1.
    destruct Ho as [Ho | (o2 & H2 & Ho)]; [done |]. rewrite H2. cbn [snd].
    destruct (PyStr.find (PyStr.lower o2) tag =? -1) eqn:E2; [| done].
    by apply (find_occurs_ci tag o2 E) in E2.
  - apply bool_decide_eq_false in E. by rewrite (validate_other_run w st tag E Hd).
Qed.

Lemma from_shim_returns (st : state) (d machine : string) :
  is_Some (env st !! "system_install") ->
  env st !! "distribution" = Some (VStr d) ->
  (env st !! "use_sudo" = None \/ exists s, env st !! "use_sudo" = Some (VStr s)) ->
  w_run w "uname -m" = Some machine ->
  (setup_from_shim w st).2 = Ok tt.
Proof.
  intros [v Hv] Hd Hs Hm. unfold setup_from_shim.
  rewrite run_bind. unfold _cloudman_compatibility. rewrite run_bind.
  unfold getattr at 1. rewrite Hv. unfold setattr at 1.
  rewrite run_bind, (setup_nixpkgs_run _ d) by (cbn [env]; by simpl_lookup).
  cbv beta iota zeta. rewrite run_bind, configure_sudo_unfold. cbn [env]. simpl_lookup.
  assert (exists s, default (VStr "true") (env st !! "use_sudo") = VStr s) as [s ->].
  { destruct Hs as [-> | [s ->]]; by eexists. }
  cbv beta iota. rewrite run_bind. unfold run. cbn [env log cmds]. by rewrite Hm.
Qed.

End DispatcherReturns.

(** X24: conditions under which the set-up returns.  For any of the four
    tags: host resolution completes, [dist_name] is a string when the tag
    is ubuntu or debian, the live machine passes the validation,
    [system_install] is set, [use_sudo] is unset or a string, and
    [uname -m] can be read. *)
Theorem dispatcher_returns (w : world) (st st1 : state) (p : profile) (machine : string) :
  env st !! "distribution" = Some (VStr (tag_of p)) ->
  setup_through_hosts w st = (st1, Ok tt) ->
  (p = Ubuntu \/ p = Debian -> exists v, env st !! "dist_name" = Some (VStr v)) ->
  machine_matches w (tag_of p) ->
  is_Some (env st !! "system_install") ->
  (env st !! "use_sudo" = None \/ exists s, env st !! "use_sudo" = Some (VStr s)) ->
  w_run w "uname -m" = Some machine ->
  (_setup_distribution_environment w st).2 = Ok tt.
Proof.
  intros Hd Hhosts Hv Hm Hsys Hsudo Hu.
  assert (forall k, k ∉ ["user"; "hosts"; "port"; "host_string"; "key_filename";
                         "java_home"] ->
            env st1 !! k = env st !! k) as Hframe1.
  { intros k Hk. by apply (stable_run_eq (holds k (env st !! k)) _ _ _ _
                             (stable_through_hosts w k _ Hk) Hhosts). }
  rewrite dispatcher_split. unfold setup_through_validation.
  rewrite run_bind, (run_bind (setup_through_hosts w)), Hhosts.
  rewrite run_bind, (setup_profile_run p st1)
    by (rewrite (Hframe1 "distribution") by solve_not_elem; done).
  pose proof (profile_returns p st1) as Hret.
  rewrite (Hframe1 "dist_name") in Hret by solve_not_elem. specialize (Hret Hv).
  assert (forall k, k ∉ "java_home" :: assigned p ->
            env (run_profile p st1).1 !! k = env st1 !! k) as Hframe2.
  { intros k Hk. by apply (profile_frame p k (env st1 !! k) Hk st1). }
  destruct (run_profile p st1) as [st2 r2]. cbn [fst snd] in *. subst r2.
  assert (forall k, k ∈ ["distribution"; "system_install"; "use_sudo"] ->
            env st2 !! k = env st !! k) as Hframe.
  { intros k Hk. rewrite !elem_of_cons, elem_of_nil in Hk.
    destruct Hk as [-> | [-> | [-> | []]]];
      (rewrite Hframe2 by (destruct p; solve_not_elem));
      apply Hframe1; solve_not_elem. }
  rewrite run_bind. unfold getattr at 1.
  rewrite (Hframe "distribution") by (repeat constructor). rewrite Hd.
  pose proof (validate_returns w st2 (tag_of p) Hm) as Hval.
  rewrite (Hframe "distribution") in Hval by (repeat constructor). specialize (Hval Hd).
  pose proof (stable_validate w (fun e => e = env st2) (VStr (tag_of p)) st2 eq_refl) as He.
  destruct (_validate_target_distribution w (VStr (tag_of p)) st2) as [st3 r3].
  cbn [fst snd] in *. subst r3.
  apply (from_shim_returns w st3 (tag_of p) machine); rewrite ?He.
  - by rewrite (Hframe "system_install") by (repeat constructor).
  - by rewrite (Hframe "distribution") by (repeat constructor).
  - by rewrite (Hframe "use_sudo") by (repeat constructor).
  - done.
Qed.

Lemma dispatcher_returns_witness :
  setup_through_hosts ubuntu_full_world ubuntu_full_state
    = (State (env ubuntu_full_state) [(INFO, "Distribution ubuntu")] [], Ok tt) /\
  machine_matches ubuntu_full_world "ubuntu" /\
  (_setup_distribution_environment ubuntu_full_world ubuntu_full_state).2 = Ok tt.
Proof.
  assert (setup_through_hosts ubuntu_full_world ubuntu_full_state
          = (State (env ubuntu_full_state) [(INFO, "Distribution ubuntu")] [], Ok tt))
    as Hh by (vm_compute; reflexivity).
  assert (machine_matches ubuntu_full_world "ubuntu") as Hm.
  { intros _. exists "Linux version 3.2.0 (gcc 4.6.3)". split; [reflexivity |].
    right. exists "Ubuntu 12.04 LTS". split; [reflexivity |].
    by exists "", " 12.04 lts". }
  split; [exact Hh |]. split; [exact Hm |].
  apply (dispatcher_returns ubuntu_full_world ubuntu_full_state _ Ubuntu "x86_64"
           eq_refl Hh); [| exact Hm | | | reflexivity].
  - intros _. by exists "precise".
  - by exists (VStr "/usr").
  - by left.
Defined.

(** ** What the set-up never does *)

Section Emits.

Context {A B : Type} (allowed : list string).

Lemma emits_silent (m : M A) :
  (forall st, cmds (m st).1 = cmds st) -> emits allowed m.
Proof.
  intros H st. exists []. split; [| constructor]. by rewrite H, app_nil_r.
Qed.

Lemma emits_bind (m : M A) (f : A -> M B) :
  emits allowed m -> (forall a, emits allowed (f a)) -> emits allowed (m ≫= f).
Proof.
  intros Hm Hf st. rewrite run_bind. destruct (Hm st) as (l1 & E1 & H1).
  destruct (m st) as [st' [a|e]]; cbn [fst] in *.
  - destruct (Hf a st') as (l2 & E2 & H2). exists (l1 ++ l2)%list.
    split; [by rewrite E2, E1, app_assoc | by apply Forall_app].
  - by exists l1.
Qed.

Lemma emits_mret (a : A) : emits allowed (mret a).
Proof. by apply emits_silent. Qed.

Lemma emits_raise (e : exn) : emits allowed (raise e : M A).
Proof. by apply emits_silent. Qed.

Lemma emits_lift (r : result A) : emits allowed (lift r).
Proof. by apply emits_silent. Qed.

End Emits.

Section EmitsPrimitives.

Variable allowed : list string.

Lemma emits_getattr (k : string) : emits allowed (getattr k).
Proof. apply emits_silent. intros st. unfold getattr. by destruct (env st !! k). Qed.

Lemma emits_getattr_default (k : string) (d : value) : emits allowed (getattr_default k d).
Proof. by apply emits_silent. Qed.

Lemma emits_has_key (k : string) : emits allowed (has_key k).
Proof. by apply emits_silent. Qed.

Lemma emits_setattr (k : string) (v : value) : emits allowed (setattr k v).
Proof. by apply emits_silent. Qed.

Lemma emits_logger (lvl : level) (msg : string) : emits allowed (logger lvl msg).
Proof. by apply emits_silent. Qed.

Lemma emits_getitem (d : gmap string string) (k : string) : emits allowed (getitem d k).
Proof. apply emits_silent. intros st. unfold getitem. by destruct (d !! k). Qed.

Lemma emits_run (w : world) (cmd : string) : cmd ∈ allowed -> emits allowed (run w cmd).
Proof.
  intros H st. exists [cmd]. split; [| by repeat constructor].
  unfold run. by destruct (w_run w cmd).
Qed.

End EmitsPrimitives.

Create HintDb emits discriminated.

#[export] Hint Resolve emits_mret emits_raise emits_lift emits_getattr
  emits_getattr_default emits_has_key emits_setattr emits_logger emits_getitem : emits.

(** Walks through a computation, as [stable_step] does. *)
Ltac emits_step :=
  lazymatch goal with
  | |- emits _ (_ ≫= _) => apply emits_bind; [| intros ?]
  | |- emits _ (run _ _) => apply emits_run; repeat constructor
  | |- emits _ (if ?b then _ else _) => destruct b
  | |- emits _ (match ?x with _ => _ end) => destruct x
  | |- emits _ (let _ := _ in _) => cbv zeta
  | |- emits _ _ => solve [auto with emits]
  end.

Ltac solve_emits := repeat emits_step.

Section Never.

Variable w : world.

Lemma dispatcher_stable (k : string) (x : option value) :
  k ∉ setup_fields -> stable (holds k x) (_setup_distribution_environment w).
Proof.
  intros H. unfold setup_fields in H. split_not_elem H.
  unfold _setup_distribution_environment, _setup_vagrant_environment,
    _setup_local_environment, _setup_ubuntu, _setup_debian, _setup_centos,
    _setup_scientificlinux, _setup_deb_general, _add_source_versions,
    _validate_target_distribution, _cloudman_compatibility, _setup_nixpkgs,
    _configure_sudo.
  solve_stable.
Qed.

End Never.

(** X25: the set-up never changes a field outside the seventeen it assigns,
    whatever the world and however it ends; in particular [distribution],
    [dist_name] and [system_install], which it reads, are left as the
    caller set them. *)
Theorem dispatcher_frame (w : world) (st : state) (k : string) :
  k ∉ setup_fields ->
  env (_setup_distribution_environment w st).1 !! k = env st !! k.
Proof. intros H. by apply (dispatcher_stable w k (env st !! k) H st). Qed.

Lemma dispatcher_frame_witness :
  ("dist_name" ∉ setup_fields) /\
  env (_setup_distribution_environment ubuntu_full_world ubuntu_full_state).1 !! "dist_name"
    = Some (VStr "precise").
Proof.
  assert ("dist_name" ∉ setup_fields) as H by (unfold setup_fields; solve_not_elem).
  split; [exact H |].
  exact (dispatcher_frame ubuntu_full_world ubuntu_full_state "dist_name" H).
Defined.

Section EmitsInOrder.

Context {A B : Type}.

Lemma emits_sub_silent (p : list string) (m : M A) : emits [] m -> emits_sub p m.
Proof.
  intros H st. destruct (H st) as (l & E & Hl). exists []. split; [| apply sublist_nil_l].
  destruct l as [|c l]; [done |]. apply Forall_cons in Hl as [Hc _].
  by apply elem_of_nil in Hc.
Qed.

Lemma emits_sub_bind (p1 p2 : list string) (m : M A) (f : A -> M B) :
  emits_sub p1 m -> (forall a, emits_sub p2 (f a)) -> emits_sub (p1 ++ p2) (m ≫= f).
Proof.
  intros Hm Hf st. rewrite run_bind. destruct (Hm st) as (l1 & E1 & H1).
  destruct (m st) as [st' [a|e]]; cbn [fst] in *.
  - destruct (Hf a st') as (l2 & E2 & H2). exists (l1 ++ l2)%list.
    split; [by rewrite E2, E1, app_assoc | by apply sublist_app].
  - exists l1. split; [done |]. by apply sublist_inserts_r.
Qed.

Lemma emits_sub_bind_silent (p : list string) (m : M A) (f : A -> M B) :
  emits [] m -> (forall a, emits_sub p (f a)) -> emits_sub p (m ≫= f).
Proof.
  intros Hm Hf. apply (emits_sub_bind [] p); [by apply emits_sub_silent | done].
Qed.

End EmitsInOrder.

Lemma emits_sub_run (w : world) (cmd : string) : emits_sub [cmd] (run w cmd).
Proof.
  intros st. exists [cmd]. split; [| done]. unfold run. by destruct (w_run w cmd).
Qed.

Section InOrder.

Variable w : world.

Lemma validate_emits_sub (dist : value) :
  emits_sub ["cat /proc/version"; "cat /etc/issue"] (_validate_target_distribution w dist).
Proof.
  unfold _validate_target_distribution.
  do 3 (apply emits_sub_bind_silent; [solve_emits | intros ?]).
  destruct (py_in_strs dist ["debian"; "ubuntu"]);
    [| apply emits_sub_silent; solve_emits].
  apply (emits_sub_bind ["cat /proc/version"] ["cat /etc/issue"]);
    [apply emits_sub_run | intros tag].
  apply emits_sub_bind_silent; [solve_emits | intros i].
  destruct (i =? -1); [| apply emits_sub_silent; solve_emits].
  apply (emits_sub_bind ["cat /etc/issue"] []); [apply emits_sub_run | intros tag2].
  apply emits_sub_silent. solve_emits.
Qed.

Lemma hosts_block_silent (hosts : value) :
  emits [] (if bool_decide (hosts = VList ["vagrant"]) then _setup_vagrant_environment w
            else if bool_decide (hosts = VList ["localhost"])
                 then _setup_local_environment w else mret tt).
Proof. unfold _setup_vagrant_environment, _setup_local_environment. solve_emits. Qed.

Lemma profile_block_silent (distribution : value) :
  emits [] (if py_eq_str distribution "ubuntu" then _setup_ubuntu
            else if py_eq_str distribution "centos" then _setup_centos
            else if py_eq_str distribution "scientificlinux" then _setup_scientificlinux
            else if py_eq_str distribution "debian" then _setup_debian
            else err ← lift (py_percent "Unexpected distribution %s" [distribution]);
                 raise (ValueError err)).
Proof.
  unfold _setup_ubuntu, _setup_debian, _setup_centos, _setup_scientificlinux,
    _setup_deb_general, _add_source_versions. solve_emits.
Qed.

Lemma dispatcher_emits_sub :
  emits_sub remote_reads (_setup_distribution_environment w).
Proof.
  unfold _setup_distribution_environment, remote_reads.
  do 4 (apply emits_sub_bind_silent; [solve_emits | intros ?]).
  apply emits_sub_bind_silent; [apply hosts_block_silent | intros ?].
  apply emits_sub_bind_silent; [solve_emits | intros ?].
  apply emits_sub_bind_silent; [apply profile_block_silent | intros ?].
  apply emits_sub_bind_silent; [solve_emits | intros ?].
  apply (emits_sub_bind ["cat /proc/version"; "cat /etc/issue"] ["uname -m"]);
    [apply validate_emits_sub | intros ?].
  apply emits_sub_bind_silent;
    [unfold _cloudman_compatibility; solve_emits | intros ?].
  apply emits_sub_bind_silent; [unfold _setup_nixpkgs; solve_emits | intros ?].
  apply emits_sub_bind_silent; [unfold _configure_sudo; solve_emits | intros ?].
  apply (emits_sub_bind ["uname -m"] []); [apply emits_sub_run | intros ?].
  apply emits_sub_silent. solve_emits.
Qed.

End InOrder.

(** X26: the set-up issues no remote command other than the reads of
    /proc/version and /etc/issue and [uname -m], each at most once and in
    that order: whatever the context and however the set-up ends, the
    commands issued are the ones issued before, followed by a sublist of
    these three. *)
Theorem dispatcher_remote_commands (w : world) (st : state) :
  exists l,
    cmds (_setup_distribution_environment w st).1 = (cmds st ++ l)%list /\
    sublist l remote_reads.
Proof. apply dispatcher_emits_sub. Qed.

(** X27: the host resolvers and the distribution profiles work on the
    context alone: whatever the context and however they end, they issue
    no remote command. *)
Theorem resolvers_and_profiles_are_local (w : world) (p : profile) (st : state) :
  cmds (_setup_vagrant_environment w st).1 = cmds st /\
  cmds (_setup_local_environment w st).1 = cmds st /\
  cmds (run_profile p st).1 = cmds st.
Proof.
  assert (forall (A : Type) (m : M A), emits [] m -> cmds (m st).1 = cmds st) as Hsilent.
  { intros A m H. destruct (H st) as (l & E & Hl). rewrite E.
    destruct l as [|c l]; [by rewrite app_nil_r |].
    apply Forall_cons in Hl as [Hc _]. by apply elem_of_nil in Hc. }
  split; [| split]; apply Hsilent.
  - unfold _setup_vagrant_environment. solve_emits.
  - unfold _setup_local_environment. solve_emits.
  - destruct p; unfold run_profile, _setup_ubuntu, _setup_debian, _setup_centos,
      _setup_scientificlinux, _setup_deb_general, _add_source_versions; solve_emits.
Qed.

(** ** The fields of a profile, set or not *)

Section ProfileFields.

Lemma deb_general_env_fixed (e : gmap string value) (k : string) (v : value) :
  (k, v) ∈ fixed_values Ubuntu -> deb_general_env e !! k = Some v.
Proof.
  intros H. cbn [fixed_values] in H. rewrite !elem_of_cons, elem_of_nil in H.
  unfold deb_general_env.
  destruct H as [[= -> ->] | [[= -> ->] | [[= -> ->] | [[= -> ->] | []]]]];
    destruct (e !! "java_home"); by simpl_lookup.
Qed.

Lemma deb_general_env_java_home (e : gmap string value) :
  deb_general_env e !! "java_home"
  = Some (default (VStr "/usr/lib/jvm/java-6-openjdk") (e !! "java_home")).
Proof.
  unfold deb_general_env. destruct (e !! "java_home") as [j|] eqn:Hj; simpl_lookup;
    [by rewrite Hj | done].
Qed.

Lemma deb_profile_fixed (p : profile) (st : state) (k : string) (v : value) :
  p = Ubuntu \/ p = Debian ->
  k <> "std_sources" ->
  (forall e, deb_general_env e !! k = Some v) ->
  env (run_profile p st).1 !! k = Some v.
Proof.
  intros Hp Hk Hdeb.
  destruct Hp as [-> | ->]; apply deb_profile_keeps;
    try (intros a; solve_stable; apply stable_add_source_versions);
    intros st'; rewrite deb_general_run; apply Hdeb.
Qed.

Lemma rpm_profile_env (p : profile) (st : state) :
  p = Centos \/ p = ScientificLinux ->
  env (run_profile p st).1 =
    <["java_home":=default (java_home_default p) (env st !! "java_home")]>
      (match p with
       | Centos => <["ruby_version_ext":=VStr ""]>
                     (<["python_version_ext":=VStr "2.6"]> (env st))
       | _ => <["pip_cmd":=VStr "pip-python"]> (env st)
       end).
Proof.
  intros [-> | ->]; unfold run_profile, _setup_centos, _setup_scientificlinux;
    rewrite run_bind; unfold logger at 1; cbv beta iota;
    repeat (rewrite (run_bind (setattr _ _)); unfold setattr at 1; cbv beta iota);
    rewrite fill_run; cbn [fst env java_home_default]; by simpl_lookup.
Qed.

Lemma deb_profile_java_default (p : profile) (st : state) :
  p = Ubuntu \/ p = Debian ->
  env st !! "java_home" = None ->
  env (run_profile p st).1 !! "java_home" = Some (VStr "/usr/lib/jvm/java-6-openjdk").
Proof.
  intros Hp Hj.
  destruct Hp as [-> | ->]; unfold run_profile, _setup_ubuntu, _setup_debian;
    rewrite run_bind; unfold logger at 1; cbv beta iota;
    (apply (stable_after (holds "java_home" (Some (VStr "/usr/lib/jvm/java-6-openjdk"))));
     [| intros a; solve_stable; apply stable_add_source_versions]);
    rewrite deb_general_run; cbn [fst env]; unfold holds;
    rewrite deb_general_env_java_home; by rewrite Hj.
Qed.

End ProfileFields.

(** C1, amended: for every context and each of the four profiles, whether
    the profile returns or raises: a [java_home] that was present keeps its
    value, and a missing one gets the default of the profile; every field
    outside the ones the profile assigns keeps its value.  The other fields
    of a profile are assigned whether or not they were present: ubuntu and
    debian assign the two apt file paths, an empty [python_version_ext] and
    [ruby_version_ext] 1.9.1, and, when [dist_name] is a string, they
    return with the substituted package sources in [std_sources]; centos
    assigns [python_version_ext] 2.6 and an empty [ruby_version_ext],
    scientificlinux assigns [pip_cmd], and these two always return. *)
Theorem profile_keeps_java_home (p : profile) (st : state) :
  (forall v, env st !! "java_home" = Some v ->
     env (run_profile p st).1 !! "java_home" = Some v) /\
  (env st !! "java_home" = None ->
     env (run_profile p st).1 !! "java_home" = Some (java_home_default p)) /\
  (forall k, k ∉ "java_home" :: assigned p ->
     env (run_profile p st).1 !! k = env st !! k) /\
  (forall k v, (k, v) ∈ fixed_values p -> env (run_profile p st).1 !! k = Some v) /\
  (forall name, p = Ubuntu \/ p = Debian -> env st !! "dist_name" = Some (VStr name) ->
     (run_profile p st).2 = Ok tt /\
     env (run_profile p st).1 !! "std_sources" = Some (VList (family_sources p name))) /\
  (p = Centos \/ p = ScientificLinux -> (run_profile p st).2 = Ok tt).
Proof.
  assert (p = Ubuntu \/ p = Debian \/ p = Centos \/ p = ScientificLinux) as Hp
    by (destruct p; auto).
  split; [| split; [| split; [| split; [| split]]]].
  - intros v Hj. by apply (profile_keeps_set_java_home p v st).
  - intros Hj. destruct Hp as [-> | [-> | [-> | ->]]].
    + apply deb_profile_java_default; [by left | done].
    + apply deb_profile_java_default; [by right | done].
    + rewrite rpm_profile_env by by left. rewrite lookup_insert_eq. by rewrite Hj.
    + rewrite rpm_profile_env by by right. rewrite lookup_insert_eq. by rewrite Hj.
  - intros k Hk. by apply (profile_frame p k (env st !! k) Hk st).
  - intros k v Hkv. destruct Hp as [-> | [-> | [-> | ->]]].
    + apply deb_profile_fixed; [by left | |].
      * cbn [fixed_values] in Hkv. rewrite !elem_of_cons, elem_of_nil in Hkv.
        destruct Hkv as [[= -> _] | [[= -> _] | [[= -> _] | [[= -> _] | []]]]]; done.
      * intros e. by apply deb_general_env_fixed.
    + apply deb_profile_fixed; [by right | |].
      * cbn [fixed_values] in Hkv. rewrite !elem_of_cons, elem_of_nil in Hkv.
        destruct Hkv as [[= -> _] | [[= -> _] | [[= -> _] | [[= -> _] | []]]]]; done.
      * intros e. by apply deb_general_env_fixed.
    + rewrite rpm_profile_env by by left.
      cbn [fixed_values] in Hkv. rewrite !elem_of_cons, elem_of_nil in Hkv.
      destruct Hkv as [[= -> ->] | [[= -> ->] | []]]; by simpl_lookup.
    + rewrite rpm_profile_env by by right.
      cbn [fixed_values] in Hkv. rewrite !elem_of_cons, elem_of_nil in Hkv.
      destruct Hkv as [[= -> ->] | []]; by simpl_lookup.
  - intros name Hdeb Hname.
    destruct (deb_profile_run p st name Hdeb Hname) as [l ->]. cbn [fst snd env].
    split; [done |]. apply lookup_insert_eq.
  - apply rpm_profile_returns.
Qed.

Lemma profile_keeps_java_home_witness :
  (Ubuntu = Ubuntu \/ Ubuntu = Debian) /\
  env custom_jdk_state !! "java_home" = Some (VStr "/custom/jdk") /\
  env custom_jdk_state !! "python_version_ext" = Some (VStr "2.7") /\
  env custom_jdk_state !! "dist_name" = Some (VStr "precise") /\
  (run_profile Ubuntu custom_jdk_state).2 = Ok tt /\
  env (run_profile Ubuntu custom_jdk_state).1 !! "java_home" = Some (VStr "/custom/jdk") /\
  env (run_profile Ubuntu custom_jdk_state).1 !! "python_version_ext" = Some (VStr "").
Proof.
  pose proof (profile_keeps_java_home Ubuntu custom_jdk_state)
    as (Hkeep & _ & _ & Hfixed & Hsrc & _).
  split; [by left |]. split; [reflexivity |]. split; [reflexivity |].
  split; [reflexivity |].
  split; [exact (proj1 (Hsrc "precise" (or_introl eq_refl) eq_refl)) |].
  split; [exact (Hkeep _ eq_refl) |].
  apply Hfixed. cbn [fixed_values]. repeat constructor.
Defined.
